(** * The entity-namespace framework of the FreeNAS command shell

    A shallow embedding of [src/namespace.py]: property mappings, the
    single-item namespace with its dirty flag and diff, the [set] /
    [discard] commands and the query-based load and task-based save
    mixins; the namespace declared in [freenas/cli/plugins/tunables.py]
    is the running instance. *)

From Stdlib Require Import ZArith.
From stdpp Require Import base option strings list gmap fin_maps.

Local Open Scope Z_scope.
Local Open Scope string_scope.

(** ** Python values *)

(** The objects that travel through entities and command arguments:
    [None], booleans, integers, strings and lists.  Floating-point values
    are outside the model. *)
#[local] Unset Elimination Schemes.
Inductive Value : Type :=
  | VNone
  | VBool (b : bool)
  | VNum (n : Z)
  | VStr (s : string)
  | VList (l : list Value).
#[local] Set Elimination Schemes.

(** Induction over values, with the hypothesis available for every
    element of a list. *)
Fixpoint Value_ind (P : Value → Prop)
    (HNone : P VNone) (HBool : ∀ b, P (VBool b)) (HNum : ∀ n, P (VNum n))
    (HStr : ∀ s, P (VStr s))
    (HList : ∀ l, Forall P l → P (VList l)) (v : Value) : P v :=
  match v with
  | VNone => HNone
  | VBool b => HBool b
  | VNum n => HNum n
  | VStr s => HStr s
  | VList l =>
      HList l
        ((fix elems (l : list Value) : Forall P l :=
            match l with
            | [] => @Stdlib.Lists.List.Forall_nil _ P
            | x :: l' =>
                @Stdlib.Lists.List.Forall_cons _ P x l'
                  (Value_ind P HNone HBool HNum HStr HList x) (elems l')
            end) l)
  end.

#[global] Instance Value_inhabited : Inhabited Value := populate VNone.

(** Python's [==] on these objects.  [bool] is a subclass of [int], so
    [True == 1] and [False == 0]; lists compare element-wise. *)
Fixpoint py_eq (a b : Value) : bool :=
  match a, b with
  | VNone, VNone => true
  | VBool x, VBool y => Bool.eqb x y
  | VNum x, VNum y => Z.eqb x y
  | VBool x, VNum y => Z.eqb (Z.b2z x) y
  | VNum x, VBool y => Z.eqb x (Z.b2z y)
  | VStr s, VStr t => String.eqb s t
  | VList xs, VList ys =>
      (fix all2 (xs ys : list Value) {struct xs} : bool :=
         match xs, ys with
         | [], [] => true
         | x :: xs', y :: ys' => py_eq x y && all2 xs' ys'
         | _, _ => false
         end) xs ys
  | _, _ => false
  end.

(** Python's [!=]. *)
Definition py_ne (a b : Value) : bool := negb (py_eq a b).

(** ** Exceptions and the command monad *)

Inductive Exn : Type :=
  | ValueError (msg : string)
  | TypeError (msg : string)
  | AttributeError (msg : string)
  | KeyError (key : string)
  | IndexError
  | CommandException (msg : string)
  | NotImplementedError
  | NotFoundError
  | BackendCallError (msg : string).

Inductive Result (A : Type) : Type :=
  | Ok (a : A)
  | Raise (e : Exn).
Arguments Ok {A} a.
Arguments Raise {A} e.

(** A Python statement running over a mutable store [S]: it returns or
    raises, and in both cases leaves a store behind.  The mutations done
    before a [raise] stay. *)
Definition Py (S A : Type) : Type := S → Result A * S.

Definition ret {S A} (a : A) : Py S A := λ s, (Ok a, s).
Definition raise {S A} (e : Exn) : Py S A := λ s, (Raise e, s).
Definition bind {S A B} (c : Py S A) (k : A → Py S B) : Py S B :=
  λ s, match c s with
       | (Ok a, s') => k a s'
       | (Raise e, s') => (Raise e, s')
       end.
Definition lift {S A} (r : Result A) : Py S A := λ s, (r, s).
Definition gets {S A} (f : S → A) : Py S A := λ s, (Ok (f s), s).
Definition modify {S} (f : S → S) : Py S unit := λ s, (Ok tt, f s).

(** Runs a statement on a component of the store (an attribute reached
    through a reference). *)
Definition zoom {S T A} (get : S → T) (put : T → S → S) (c : Py T A) : Py S A :=
  λ s, let '(r, t') := c (get s) in (r, put t' s).

Declare Scope py_scope.
Delimit Scope py_scope with py.
Notation "'let*' x ':=' c 'in' k" := (bind c (λ x, k))
  (at level 10, x name, c at level 100, k at level 200) : py_scope.
Notation "c ';;' k" := (bind c (λ _, k))
  (at level 100, k at level 200, right associativity) : py_scope.
Local Open Scope py_scope.

(** [for x in l: body(x)] *)
Fixpoint for_each {S A} (body : A → Py S unit) (l : list A) : Py S unit :=
  match l with
  | [] => ret tt
  | x :: l' => body x ;; for_each body l'
  end.

(** ** Entities and property mappings *)

(** An entity is a Python [dict] from field names to values.  The order in
    which [keys()] and [items()] enumerate it is the fixed order of
    [map_to_list]. *)
Abbreviation Entity := (gmap string Value).

(** [obj.keys()] *)
Definition keys (obj : Entity) : list string := (map_to_list obj).*1.

(** [obj[key]] *)
Definition getitem (obj : Entity) (key : string) : Result Value :=
  match obj !! key with
  | Some v => Ok v
  | None => Raise (KeyError key)
  end.

(** Modelled from the spec: the [ValueType] enumeration is declared in the
    [output] module, which is not among the sources; the spec lists the
    declared types STRING, BOOLEAN, ARRAY and NUMBER. *)
Inductive ValueType : Type := STRING | BOOLEAN | ARRAY | NUMBER.

#[global] Instance ValueType_eq_dec : EqDecision ValueType.
Proof. solve_decision. Defined.

(** The [get] and [set] attributes of a mapping: a key of the entity (a
    string) or a function.  A function accessor is a function of the
    entity; the object it returns is taken by value. *)
Inductive Accessor : Type :=
  | Key (k : string)
  | Getter (f : Entity → Result Value)
  | Setter (g : Value → Py Entity unit).

Definition callable (a : Accessor) : bool :=
  match a with
  | Key _ => false
  | Getter _ | Setter _ => true
  end.

(** [a(obj)] *)
Definition call1 (a : Accessor) : Py Entity Value :=
  match a with
  | Key _ => raise (TypeError "'str' object is not callable")
  | Getter f => λ obj, (f obj, obj)
  | Setter _ => raise (TypeError "takes exactly 2 arguments (1 given)")
  end.

(** [a(obj, value)] *)
Definition call2 (a : Accessor) (value : Value) : Py Entity unit :=
  match a with
  | Key _ => raise (TypeError "'str' object is not callable")
  | Getter _ => raise (TypeError "takes exactly 1 argument (2 given)")
  | Setter g => g value
  end.

Record PropertyMapping : Type := {
  pm_name : string;
  pm_descr : string;
  pm_get : Accessor;
  pm_set : Accessor;
  pm_list : bool;
  pm_type : ValueType
}.

(** [PropertyMapping.__init__]: [self.set = set or get], where [None] and
    the empty string are the false values an accessor can take. *)
Definition PropertyMapping_init (name descr : string) (get : Accessor)
    (set : option Accessor) (list : bool) (type : ValueType) : PropertyMapping :=
  {| pm_name := name;
     pm_descr := descr;
     pm_get := get;
     pm_set := match set with
               | None | Some (Key EmptyString) => get
               | Some a => a
               end;
     pm_list := list;
     pm_type := type |}.

(** [target.append(value)]: only a list has the attribute; the call
    returns [None]. *)
Definition append (target value : Value) : Result Value :=
  match target with
  | VList _ => Ok VNone
  | _ => Raise (AttributeError "append")
  end.

Section PropertyMappingOps.
(** The coercion collaborator [read_value] of the [output] module. *)
Variable read_value : Value → ValueType → Result Value.

Definition do_get (self : PropertyMapping) : Py Entity Value :=
  if callable (pm_get self) then call1 (pm_get self)
  else
    match pm_get self with
    | Key k => gets (λ obj, default VNone (obj !! k))
    | _ => call1 (pm_get self)
    end.

Definition do_set (self : PropertyMapping) (value : Value) : Py Entity unit :=
  let* value := lift (read_value value (pm_type self)) in
  if callable (pm_set self) then call2 (pm_set self) value
  else
    match pm_set self with
    | Key k => modify (λ obj, <[k := value]> obj)
    | _ => call2 (pm_set self) value
    end.

Definition do_append (self : PropertyMapping) (value : Value) : Py Entity unit :=
  if decide (pm_type self ≠ ARRAY) then
    raise (ValueError "Property is not an array")
  else
    let* value := lift (read_value value (pm_type self)) in
    let* target := call1 (pm_get self) in
    let* appended := lift (append target value) in
    call2 (pm_set self) appended.

Definition do_remove (self : PropertyMapping) (value : Value) : Py Entity unit :=
  if decide (pm_type self ≠ ARRAY) then
    raise (ValueError "Property is not an array")
  else
    let* value := lift (read_value value (pm_type self)) in
    ret tt.
End PropertyMappingOps.

(** ** The changed-key set and the diff *)

(** [ItemNamespace.get_changed_keys], over [self.entity] and
    [self.orig_entity]: the keys it yields, in order. *)
Definition get_changed_keys (entity orig_entity : Entity) : list string :=
  List.filter
    (λ i, match orig_entity !! i with
          | None => true
          | Some w => py_ne (entity !!! i) w
          end)
    (keys entity).

(** [ItemNamespace.get_diff] *)
Definition get_diff (entity orig_entity : Entity) : Entity :=
  list_to_map ((λ k, (k, entity !!! k)) <$> get_changed_keys entity orig_entity).

(** ** Namespaces, the shell context and the commands *)

(** A single-item namespace whose entity has been populated (by [load] on
    entering it, or by the [create] command from the skeleton entity).
    [name] is the primary-key value the namespace was enumerated under,
    [VNone] for a new record. *)
Record Item : Type := {
  name : Value;
  entity : Entity;
  orig_entity : Entity;
  modified : bool;
  saved : bool
}.

(** [SingleItemNamespace.__init__] followed by the assignment of its
    entity: [self.saved = name is not None]. *)
Definition SingleItemNamespace_init (name : Value) (entity : Entity) : Item :=
  {| name := name;
     entity := entity;
     orig_entity := entity;
     modified := false;
     saved := match name with VNone => false | _ => true end |}.

Definition set_entity (e : Entity) (i : Item) : Item :=
  {| name := name i; entity := e; orig_entity := orig_entity i;
     modified := modified i; saved := saved i |}.
Definition set_orig_entity (e : Entity) (i : Item) : Item :=
  {| name := name i; entity := entity i; orig_entity := e;
     modified := modified i; saved := saved i |}.
Definition set_modified (b : bool) (i : Item) : Item :=
  {| name := name i; entity := entity i; orig_entity := orig_entity i;
     modified := b; saved := saved i |}.
Definition set_saved (b : bool) (i : Item) : Item :=
  {| name := name i; entity := entity i; orig_entity := orig_entity i;
     modified := modified i; saved := b |}.

(** The closures handed to [submit_task]:
    [lambda s: self.post_save(this, s)]. *)
Inductive Callback : Type := PostSave.

Inductive TaskArg : Type :=
  | ArgValue (v : Value)
  | ArgDict (d : Entity).

(** One call of [context.submit_task(name, *args, callback=...)]. *)
Record Task : Type := {
  task_name : string;
  task_args : list TaskArg;
  task_callback : option Callback
}.

(** What a command can touch: the namespace it runs in, the tasks handed
    to the context and the messages printed by [output_msg]. *)
Record World : Type := {
  item : Item;
  tasks : list Task;
  output : list string
}.

Definition set_item (i : Item) (w : World) : World :=
  {| item := i; tasks := tasks w; output := output w |}.

Definition on_item {A} (c : Py Item A) : Py World A := zoom item set_item c.
Definition on_entity {A} (c : Py Entity A) : Py Item A := zoom entity set_entity c.

(** [s] between double quotes. *)
Definition quoted (s : string) : string :=
  let dq := String (Ascii.ascii_of_nat 34) EmptyString in dq ++ s ++ dq.

Definition output_msg (msg : string) : Py World unit :=
  modify (λ w, {| item := item w; tasks := tasks w; output := output w ++ [msg] |}).

Definition submit_task (task : string) (args : list TaskArg)
    (callback : option Callback) : Py World unit :=
  modify (λ w, {| item := item w;
                  tasks := tasks w ++ [{| task_name := task; task_args := args;
                                          task_callback := callback |}];
                  output := output w |}).

(** Modelled from the spec: [QueryDict] of [fnutils.query] is not among
    the sources.  It wraps the record a single-record query returned; a
    primary-key lookup that finds no matching record (the call returned
    [None]) fails with [NotFoundError]. *)
Definition QueryDict (record : option Entity) : Result Entity :=
  match record with
  | Some d => Ok d
  | None => Raise NotFoundError
  end.

(** ** The tunables namespace *)

(** The schema [TunablesNamespace.__init__] registers with [add_property]
    (the [usage] and [enum] keywords are not read by this
    [PropertyMapping]). *)
Definition tunables_mappings : list PropertyMapping :=
  [ PropertyMapping_init "name" "Variable" (Key "var") (Some (Key "var")) true STRING;
    PropertyMapping_init "value" "Value" (Key "value") (Some (Key "value")) true STRING;
    PropertyMapping_init "type" "Type" (Key "type") (Some (Key "type")) true STRING;
    PropertyMapping_init "comment" "Comment" (Key "comment") (Some (Key "comment")) true STRING;
    PropertyMapping_init "enabled" "Enabled" (Key "enabled") (Some (Key "enabled")) true BOOLEAN ].

(** A coercion to run the examples with: strings stay strings, [yes] and
    [no] are the booleans, a list is an array, an integer a number. *)
Definition sample_read_value (value : Value) (type : ValueType) : Result Value :=
  match type, value with
  | STRING, VStr s => Ok (VStr s)
  | BOOLEAN, VBool b => Ok (VBool b)
  | BOOLEAN, VStr "yes" => Ok (VBool true)
  | BOOLEAN, VStr "no" => Ok (VBool false)
  | ARRAY, VList l => Ok (VList l)
  | ARRAY, VStr s => Ok (VList [VStr s])
  | NUMBER, VNum n => Ok (VNum n)
  | _, _ => Raise (ValueError "invalid value")
  end.

(** A backend holding one tunable, [kern.maxfiles]. *)
Definition sample_record : Entity :=
  {[ "var" := VStr "kern.maxfiles"; "value" := VStr "1024";
     "type" := VStr "SYSCTL"; "enabled" := VBool true ]}.

Definition sample_call_sync (method : string)
    (params : list (string * string * Value)) (options : gmap string Value) :
    Result (option Entity) :=
  match params with
  | [(_, _, VStr "kern.maxfiles")] => Ok (Some sample_record)
  | _ => Ok None
  end.

(** The namespace of that tunable, as [namespaces()] enumerates it, and
    the one the [create] command opens on an empty skeleton entity. *)
Definition sample_item : Item :=
  SingleItemNamespace_init (VStr "kern.maxfiles") sample_record.
Definition sample_new_item : Item := SingleItemNamespace_init VNone ∅.

Definition sample_world : World :=
  {| item := sample_item; tasks := []; output := [] |}.
Definition sample_new_world : World :=
  {| item := sample_new_item; tasks := []; output := [] |}.

(** An array-typed mapping with key accessors. *)
Definition sample_array_mapping : PropertyMapping :=
  PropertyMapping_init "tags" "Tags" (Key "tags") None false ARRAY.

(** ** Commands, columns and truth values *)

(** The truth value Python gives an object in [if] and [not]. *)
Definition truthy (v : Value) : bool :=
  match v with
  | VNone => false
  | VBool b => b
  | VNum n => negb (Z.eqb n 0)
  | VStr EmptyString => false
  | VStr _ => true
  | VList [] => false
  | VList _ => true
  end.

(** The command objects a namespace offers; [CustomCommand] stands for
    the ones a concrete namespace supplies. *)
Inductive CommandObj : Type :=
  | IndexCommand
  | GetEntityCommand
  | ShowEntityCommand
  | SetEntityCommand
  | SaveEntityCommand
  | DiscardEntityCommand
  | ListCommand
  | CreateEntityCommand
  | DeleteEntityCommand
  | CustomCommand (tag : string).

(** The arguments of [Column(col.descr, col.get, col.type)]. *)
Record Column : Type := {
  col_descr : string;
  col_get : Accessor;
  col_type : ValueType
}.

(** What [ListCommand.run] collects before it queries: the filter
    triples and the options. *)
Record ListRequest : Type := {
  params : list (string * string * Value);
  options : gmap string Value
}.

Definition add_param (p : string * string * Value) (r : ListRequest) : ListRequest :=
  {| params := params r ++ [p]; options := options r |}.
Definition set_option (k : string) (v : Value) (r : ListRequest) : ListRequest :=
  {| params := params r; options := <[k := v]> (options r) |}.

(** Collaborators to run the examples with: the text shown for an
    object, [int()] on the values of the model, and a skeleton entity. *)
Definition sample_text (v : Value) : string :=
  match v with
  | VNone => "None"
  | VBool true => "True"
  | VBool false => "False"
  | VNum _ => "<number>"
  | VStr s => s
  | VList _ => "<list>"
  end.

Definition sample_int (v : Value) : Result Value :=
  match v with
  | VNum n => Ok (VNum n)
  | VBool b => Ok (VNum (Z.b2z b))
  | VStr "10" => Ok (VNum 10)
  | _ => Raise (ValueError "invalid literal for int()")
  end.

Definition sample_skeleton : Entity := {[ "type" := VStr "SYSCTL" ]}.

(** The mapping [TunablesNamespace] takes as primary key:
    [self.get_mapping('name')]. *)
Definition tunables_primary_key : PropertyMapping :=
  PropertyMapping_init "name" "Variable" (Key "var") (Some (Key "var")) true STRING.

(** ** The lifecycle of a namespace *)

(** What the shell does to a namespace once it was entered: the [set],
    [save] and [discard] commands, and the delivery of a task status to
    the save callback. *)
Inductive Op : Type :=
  | OpSet (kwargs : list (string * Value)) (opargs : list (string * string * Value))
  | OpSave
  | OpCallback (status : string)
  | OpDiscard.

Definition finished (op : Op) : bool :=
  match op with
  | OpCallback status => String.eqb status "FINISHED"
  | _ => false
  end.

Section Framework.
#[local] Set Default Proof Using "Type".
(** Collaborators: the coercion of raw values and the synchronous
    remote call of the connection (its result for a single-record
    query is the record or [None]). *)
Variable read_value : Value → ValueType → Result Value.
Variable call_sync :
  string → list (string * string * Value) → gmap string Value →
  Result (option Entity).

(** What a concrete namespace declares. *)
Variable property_mappings : list PropertyMapping.
Variables query_call create_task update_task delete_task : string.
Variable primary_key_name : string.

(** [has_property]: [any] over the mappings [filter] keeps; a mapping
    object is true. *)
Definition has_property (prop : string) : bool :=
  match List.filter (λ x, String.eqb (pm_name x) prop) property_mappings with
  | [] => false
  | _ :: _ => true
  end.

(** [get_mapping]: element 0 of the filtered list. *)
Definition get_mapping (prop : string) : Result PropertyMapping :=
  match List.filter (λ x, String.eqb (pm_name x) prop) property_mappings with
  | [] => Raise IndexError
  | x :: _ => Ok x
  end.

(** The second loop of [SetEntityCommand.run] *)
Definition assign_kwargs (kwargs : list (string * Value)) : Py Entity unit :=
  for_each (λ kv : string * Value,
              let* prop := lift (get_mapping kv.1) in
              do_set read_value prop kv.2) kwargs.

(** The third loop of [SetEntityCommand.run] *)
Definition apply_opargs (opargs : list (string * string * Value)) : Py Entity unit :=
  for_each (λ kopv : string * string * Value,
              let '(k, op, v) := kopv in
              if negb (String.eqb op "+=" || String.eqb op "-=") then
                raise (CommandException "Syntax error, invalid operator used")
              else
                let* prop := lift (get_mapping k) in
                (if String.eqb op "+=" then do_append read_value prop v else ret tt) ;;
                (if String.eqb op "-=" then do_remove read_value prop v else ret tt))
           opargs.

(** [ItemNamespace.SetEntityCommand.run]; [kwargs] is given by its
    [items()]. *)
Definition SetEntityCommand_run (kwargs : list (string * Value))
    (opargs : list (string * string * Value)) : Py World unit :=
  match List.find (λ kv : string * Value, negb (has_property kv.1)) kwargs with
  | Some kv => output_msg ("Property " ++ kv.1 ++ " not found")
  | None =>
      on_item (on_entity (assign_kwargs kwargs)) ;;
      on_item (on_entity (apply_opargs opargs)) ;;
      on_item (modify (set_modified true))
  end.

(** [RpcBasedLoadMixin.get_one] *)
Definition get_one (name : Value) : Result Entity :=
  match call_sync query_call [(primary_key_name, "=", name)]
          {["single" := VBool true]} with
  | Ok record => QueryDict record
  | Raise e => Raise e
  end.

(** [EntityNamespace.SingleItemNamespace.load]; the deep copy of a value
    is the value. *)
Definition load : Py Item unit :=
  let* is_saved := gets saved in
  (if is_saved : bool then
     let* self_name := gets name in
     let* e := lift (get_one self_name) in
     modify (set_entity e)
   else ret tt) ;;
  let* e := gets entity in
  modify (set_orig_entity e).

(** [ItemNamespace.on_enter] *)
Definition on_enter : Py World unit := on_item load.

(** [ItemNamespace.DiscardEntityCommand.run] *)
Definition DiscardEntityCommand_run : Py World unit :=
  on_item load ;;
  on_item (modify (set_modified false)).

(** [ItemNamespace.on_leave] *)
Definition on_leave : Py World bool :=
  let* is_modified := on_item (gets modified) in
  if is_modified : bool then
    output_msg ("Object was modified. Type either " ++ quoted "save" ++
                " or " ++ quoted "discard" ++ " to leave") ;;
    ret false
  else ret true.

(** [TaskBasedSaveMixin.post_save] *)
Definition post_save (status : string) : Py Item unit :=
  if String.eqb status "FINISHED" then
    modify (set_modified false) ;;
    modify (set_saved true)
  else ret tt.

(** Runs a callback when the task reports [status]. *)
Definition run_callback (cb : Callback) (status : string) : Py World unit :=
  match cb with
  | PostSave => on_item (post_save status)
  end.

(** [TaskBasedSaveMixin.save] *)
Definition TaskBasedSaveMixin_save (new : bool) : Py World unit :=
  if new then
    let* e := on_item (gets entity) in
    submit_task create_task [ArgDict e] (Some PostSave)
  else
    let* orig := on_item (gets orig_entity) in
    let* pk := lift (getitem orig primary_key_name) in
    let* diff := on_item (gets (λ this, get_diff (entity this) (orig_entity this))) in
    submit_task update_task [ArgValue pk; ArgDict diff] (Some PostSave).

(** [SingleItemNamespace.save], which [SaveEntityCommand.run] calls. *)
Definition save : Py World unit :=
  let* is_saved := on_item (gets saved) in
  TaskBasedSaveMixin_save (negb is_saved).

(** [TaskBasedSaveMixin.delete] *)
Definition delete (name : Value) : Py World unit :=
  let* e := lift (get_one name) in
  let* pk := lift (getitem e primary_key_name) in
  submit_task delete_task [ArgValue pk] None.

(** One operation of the shell on the namespace. *)
Definition exec (op : Op) : Py World unit :=
  match op with
  | OpSet kwargs opargs => SetEntityCommand_run kwargs opargs
  | OpSave => save
  | OpCallback status => run_callback PostSave status
  | OpDiscard => DiscardEntityCommand_run
  end.

(** Entering the namespace, then the operations in order. *)
Definition lifecycle (ops : list Op) : Py World unit :=
  on_enter ;; for_each exec ops.

(** ** The other commands of the namespaces *)

(** More collaborators: the text [output_msg] shows for an object that is
    not a string, [repr] (which is [str()] on everything but a string)
    and [int()]. *)
Variable msg_text : Value → string.
Variable py_repr : Value → string.
Variable py_int : Value → Result Value.

(** More of what a namespace declares: the mapping taken as primary key
    ([None] until one is set), the skeleton entity, the permission
    flags and the commands added to the built-in ones. *)
Variable primary_key : option PropertyMapping.
Variable skeleton_entity : Entity.
Variables allow_edit allow_create : bool.
Variables subcommands extra_commands : gmap string CommandObj.

(** [str(v)] *)
Definition py_str (v : Value) : string :=
  match v with
  | VStr s => s
  | _ => py_repr v
  end.

(** The text of a message whose argument is an object. *)
Definition shown (v : Value) : string :=
  match v with
  | VStr s => s
  | _ => msg_text v
  end.

(** [ItemNamespace.get_property] *)
Definition get_property (prop : string) : Py Entity Value :=
  let* mapping := lift (get_mapping prop) in
  do_get mapping.

(** [ItemNamespace.GetEntityCommand.run]; [args] are the positional
    tokens. *)
Definition GetEntityCommand_run (args : list string) : Py World unit :=
  match args with
  | [] => output_msg "Wrong arguments count"
  | arg0 :: _ =>
      if negb (has_property arg0) then
        output_msg ("Property " ++ arg0 ++ " not found")
      else
        let* v := on_item (on_entity (get_property arg0)) in
        output_msg (shown v)
  end.

(** [GetEntityCommand.complete] and [SetEntityCommand.complete] *)
Definition GetEntityCommand_complete : list string :=
  (λ x, pm_name x) <$> property_mappings.
Definition SetEntityCommand_complete : list string :=
  (λ x, pm_name x ++ "=") <$> property_mappings.

(** [ItemNamespace.commands]: [dict.update] lets the later entries win;
    [self.commands] is a bound method, never [None]. *)
Definition ItemNamespace_commands : gmap string CommandObj :=
  let base : gmap string CommandObj :=
    {[ "?" := IndexCommand; "get" := GetEntityCommand;
       "show" := ShowEntityCommand ]} in
  let base :=
    if allow_edit then
      ({[ "set" := SetEntityCommand; "save" := SaveEntityCommand;
          "discard" := DiscardEntityCommand ]} : gmap string CommandObj) ∪ base
    else base in
  subcommands ∪ base.

(** [EntityNamespace.commands], with [create_command] and
    [delete_command] as [__init__] sets them; [extra_commands] is [None]
    or a dict, an empty one counting as absent. *)
Definition EntityNamespace_commands : gmap string CommandObj :=
  let base : gmap string CommandObj :=
    {[ "?" := IndexCommand; "show" := ListCommand ]} in
  let base := extra_commands ∪ base in
  if allow_create then
    ({[ "create" := CreateEntityCommand; "delete" := DeleteEntityCommand ]}
       : gmap string CommandObj) ∪ base
  else base.

(** The [primary_key] property of [SingleItemNamespace]. *)
Definition primary_key_value : Py Item Value :=
  match primary_key with
  | None => raise (AttributeError "do_get")
  | Some pk => on_entity (do_get pk)
  end.

(** [SingleItemNamespace.get_name]; a dict is true when it is not
    empty. *)
Definition get_name : Py Item Value :=
  let* e := gets entity in
  let* nm := (if decide (map_to_list e = []) then gets name
              else primary_key_value) in
  let nm := if truthy nm then nm else VStr "unnamed" in
  let* is_saved := gets saved in
  let* is_modified := gets modified in
  if is_saved && negb is_modified then ret nm
  else ret (VStr ("[" ++ py_str nm ++ "]")).

(** The first loop of [ListCommand.run] *)
Definition list_kwargs (kwargs : list (string * Value)) : Py ListRequest unit :=
  for_each (λ kv : string * Value,
              let '(k, v) := kv in
              if String.eqb k "limit" then
                let* n := lift (py_int v) in modify (set_option "limit" n)
              else if String.eqb k "sort" then modify (set_option "sort" v)
              else if String.eqb k "dir" then modify (set_option "dir" v)
              else if negb (has_property k) then
                raise (CommandException ("Unknown field " ++ k))
              else
                let* prop := lift (get_mapping k) in
                let* v := lift (read_value v (pm_type prop)) in
                modify (add_param (k, "=", v)))
           kwargs.

(** The second loop of [ListCommand.run] *)
Definition list_opargs (opargs : list (string * string * Value)) :
    Py ListRequest unit :=
  for_each (λ kopv : string * string * Value,
              let '(k, op, v) := kopv in
              let* prop := lift (get_mapping k) in
              let* v := lift (read_value v (pm_type prop)) in
              modify (add_param (k, if String.eqb op "~=" then "~" else op, v)))
           opargs.

(** The third loop of [ListCommand.run] *)
Definition list_cols : list Column :=
  (λ col, {| col_descr := pm_descr col; col_get := pm_get col;
             col_type := pm_type col |})
    <$> List.filter (λ x, pm_list x) property_mappings.

(** [ListCommand.run] up to its last line: the request it hands to
    [query] and the columns it hands to [output_table]. *)
Definition ListCommand_request (kwargs : list (string * Value))
    (opargs : list (string * string * Value)) : Result (ListRequest * list Column) :=
  match (list_kwargs kwargs ;; list_opargs opargs)
          {| params := []; options := ∅ |} with
  | (Ok _, request) => Ok (request, list_cols)
  | (Raise e, _) => Raise e
  end.

(** Modelled from the spec: [context.ml.cd] belongs to the navigation
    layer, which is not among the sources; entering an item namespace
    triggers its [load]. *)
Definition cd : Py World unit := on_enter.

(** [EntityNamespace.CreateEntityCommand.run].  The namespace [ns] it
    builds, which the save callback closes over, becomes the item of the
    world. *)
Definition CreateEntityCommand_run (args : list Value)
    (kwargs : list (string * Value)) : Py World unit :=
  modify (set_item (SingleItemNamespace_init VNone skeleton_entity)) ;;
  match args, kwargs with
  | [], [] => cd
  | _, _ =>
      match args with
      | [] => ret tt
      | arg0 :: _ =>
          match primary_key with
          | None => raise (AttributeError "do_set")
          | Some prop => on_item (on_entity (do_set read_value prop arg0))
          end
      end ;;
      match List.find (λ kv : string * Value, negb (has_property kv.1)) kwargs with
      | Some kv => output_msg ("Property " ++ kv.1 ++ " not found")
      | None =>
          on_item (on_entity (assign_kwargs kwargs)) ;;
          TaskBasedSaveMixin_save true
      end
  end.

(** [EntityNamespace.DeleteEntityCommand.run] *)
Definition DeleteEntityCommand_run (args : list Value) : Py World unit :=
  match args with
  | [] => raise IndexError
  | arg0 :: _ => delete arg0
  end.

(** The invariant of the lifecycle: a namespace whose flag is down has
    its entity equal to the snapshot. *)
Definition in_sync (w : World) : Prop :=
  modified (item w) = false → entity (item w) = orig_entity (item w).

(** Unfolds the monad down to pairs of an outcome and a store. *)
Ltac py_simpl :=
  unfold on_item, on_entity, zoom, bind, ret, raise, lift, gets, modify,
    output_msg, submit_task in *;
  simpl in *.

(** ** Values, keys and the diff *)

Lemma py_eq_refl (v : Value) : py_eq v v = true.
Proof.
  induction v as [| [] | n | s | l IH] using Value_ind; simpl; try done.
  - apply Z.eqb_refl.
  - apply String.eqb_refl.
  - induction IH as [| x l' Hx _ IHl]; [done |].
    by rewrite Hx, IHl.
Qed.

Lemma py_ne_refl (v : Value) : py_ne v v = false.
Proof. unfold py_ne. by rewrite py_eq_refl. Qed.

Lemma elem_of_keys (obj : Entity) (k : string) :
  k ∈ keys obj ↔ is_Some (obj !! k).
Proof.
  unfold keys. rewrite list_elem_of_fmap. split.
  - intros [[k' v] [-> Hin]]. apply elem_of_map_to_list in Hin. by exists v.
  - intros [v Hv]. exists (k, v). split; [done |].
    by apply elem_of_map_to_list.
Qed.

Lemma NoDup_keys (obj : Entity) : NoDup (keys obj).
Proof. apply NoDup_fst_map_to_list. Qed.

Lemma NoDup_List_filter {A} (f : A → bool) (l : list A) :
  NoDup l → NoDup (List.filter f l).
Proof.
  induction 1 as [| x l Hx _ IH]; simpl; [constructor |].
  destruct (f x); [| done].
  constructor; [| done].
  rewrite list_elem_of_In, filter_In, <- list_elem_of_In.
  by intros [Hin _].
Qed.

Lemma NoDup_get_changed_keys (entity orig_entity : Entity) :
  NoDup (get_changed_keys entity orig_entity).
Proof.
  unfold get_changed_keys. apply NoDup_List_filter, NoDup_keys.
Qed.

(** A key is yielded when the entity has it and the snapshot either
    lacks it or holds a value that is [!=]. *)
Lemma elem_of_get_changed_keys (entity orig_entity : Entity) (k : string) :
  k ∈ get_changed_keys entity orig_entity ↔
  ∃ v, entity !! k = Some v ∧
       match orig_entity !! k with
       | None => True
       | Some w => py_ne v w = true
       end.
Proof.
  unfold get_changed_keys.
  rewrite list_elem_of_In, filter_In, <- list_elem_of_In, elem_of_keys.
  split.
  - intros [[v Hv] Hc]. exists v. split; [done |].
    rewrite lookup_total_alt, Hv in Hc. simpl in Hc.
    by destruct (orig_entity !! k).
  - intros (v & Hv & Hc). split; [by exists v |].
    rewrite lookup_total_alt, Hv. simpl.
    by destruct (orig_entity !! k).
Qed.

Lemma lookup_get_diff (entity orig_entity : Entity) (k : string) :
  get_diff entity orig_entity !! k =
  if decide (k ∈ get_changed_keys entity orig_entity) then entity !! k
  else None.
Proof.
  unfold get_diff. case_decide as Hk.
  - assert (is_Some (entity !! k)) as [v Hv].
    { apply elem_of_get_changed_keys in Hk as (v & Hv & _). by exists v. }
    rewrite Hv. apply elem_of_list_to_map.
    + rewrite <- list_fmap_compose. simpl.
      rewrite list_fmap_id. apply NoDup_get_changed_keys.
    + apply list_elem_of_fmap. exists k. split; [| done].
      by rewrite lookup_total_alt, Hv.
  - apply not_elem_of_list_to_map.
    rewrite <- list_fmap_compose. simpl. by rewrite list_fmap_id.
Qed.

Lemma get_changed_keys_same (entity : Entity) :
  get_changed_keys entity entity = [].
Proof.
  apply elem_of_nil_inv. intros k Hk.
  apply elem_of_get_changed_keys in Hk as (v & Hv & Hc).
  rewrite Hv, py_ne_refl in Hc. discriminate.
Qed.

Lemma get_diff_same (entity : Entity) : get_diff entity entity = ∅.
Proof. unfold get_diff. by rewrite get_changed_keys_same. Qed.

(** ** Property mappings *)

(** C9: [do_remove] coerces the value and writes nothing: whatever its
    outcome the entity is the one it was given; on an ARRAY mapping the
    outcome is that of the coercion; on any other type [do_remove] and
    [do_append] both raise the not-an-array error. *)
Theorem do_remove_writes_nothing (self : PropertyMapping) (value : Value)
    (obj : Entity) :
  (do_remove read_value self value obj).2 = obj ∧
  (pm_type self = ARRAY →
     (do_remove read_value self value obj).1 =
     match read_value value ARRAY with
     | Ok _ => Ok tt
     | Raise e => Raise e
     end) ∧
  (pm_type self ≠ ARRAY →
     do_remove read_value self value obj =
       (Raise (ValueError "Property is not an array"), obj) ∧
     do_append read_value self value obj =
       (Raise (ValueError "Property is not an array"), obj)).
Proof.
  unfold do_remove, do_append. split_and!.
  - case_decide; py_simpl; [done |].
    by destruct (read_value value (pm_type self)).
  - intros Harr. rewrite Harr. case_decide; [done |]. py_simpl.
    by destruct (read_value value ARRAY).
  - intros Hne. by rewrite !decide_True.
Qed.

(** C10: on an ARRAY mapping whose [get] and [set] are key names,
    [do_append] always raises and the entity is unchanged: the error of
    the coercion if it fails, and otherwise the TypeError of calling the
    string held in [get]. *)
Theorem do_append_key_accessors_raise (self : PropertyMapping)
    (value : Value) (obj : Entity) (k k' : string) :
  pm_type self = ARRAY →
  pm_get self = Key k →
  pm_set self = Key k' →
  do_append read_value self value obj =
    (Raise match read_value value ARRAY with
           | Ok _ => TypeError "'str' object is not callable"
           | Raise e => e
           end, obj).
Proof.
  intros Harr Hget Hset. unfold do_append.
  rewrite Harr, Hget. case_decide; [done |]. py_simpl.
  by destruct (read_value value ARRAY).
Qed.

(** ** The single-item namespace *)

(** C4 (amended): the changed-key set is exactly the set of keys of
    [entity] that [orig_entity] lacks or maps to a different value (each
    key once), and the diff is [entity] restricted to that set. *)
Theorem get_changed_keys_get_diff (entity orig_entity : Entity) :
  NoDup (get_changed_keys entity orig_entity) ∧
  (∀ k, k ∈ get_changed_keys entity orig_entity ↔
        ∃ v, entity !! k = Some v ∧
             (orig_entity !! k = None ∨
              ∃ w, orig_entity !! k = Some w ∧ py_ne v w = true)) ∧
  get_diff entity orig_entity =
    filter (λ kv, kv.1 ∈ get_changed_keys entity orig_entity) entity.
Proof.
  split_and!.
  - apply NoDup_get_changed_keys.
  - intros k. rewrite elem_of_get_changed_keys.
    split; intros (v & Hv & Hc); exists v; (split; [done |]).
    + destruct (orig_entity !! k) as [w |]; [right; by exists w | by left].
    + destruct Hc as [-> | (w & -> & Hw)]; done.
  - apply map_eq. intros k. rewrite lookup_get_diff.
    destruct (entity !! k) as [v |] eqn:Hv.
    + case_decide as Hk.
      * symmetry. by apply map_lookup_filter_Some.
      * symmetry. apply map_lookup_filter_None. right.
        intros v' Hv'. done.
    + case_decide; symmetry; apply map_lookup_filter_None; by left.
Qed.

(** C8: [on_leave] returns [False] when [modified] is set and [True]
    otherwise, as a value; the namespace and the submitted tasks are
    the same before and after, only a message may be printed. *)
Theorem on_leave_refuses_when_modified (w : World) :
  ∃ out,
    on_leave w =
      (Ok (negb (modified (item w))),
       {| item := item w; tasks := tasks w; output := out |}).
Proof.
  unfold on_leave. destruct w as [i t o]. py_simpl.
  destruct (modified i); simpl; eauto.
Qed.

(** C3: delivered the status FINISHED, the save callback clears
    [modified] and sets [saved], leaving the entities alone; delivered
    any other status it returns without touching the namespace. *)
Theorem post_save_on_status (status : string) (this : Item) :
  (status = "FINISHED" →
     post_save status this =
       (Ok tt, {| name := name this; entity := entity this;
                  orig_entity := orig_entity this;
                  modified := false; saved := true |})) ∧
  (status ≠ "FINISHED" → post_save status this = (Ok tt, this)).
Proof.
  unfold post_save. split.
  - intros ->. done.
  - intros Hne. apply String.eqb_neq in Hne. by rewrite Hne.
Qed.

(** ** The [set] command *)

Lemma find_unknown_None (kwargs : list (string * Value)) :
  List.find (λ kv : string * Value, negb (has_property kv.1)) kwargs = None ↔
  Forall (λ kv, has_property kv.1 = true) kwargs.
Proof.
  induction kwargs as [| kv kwargs IH]; simpl.
  - split; [constructor | done].
  - destruct (has_property kv.1) eqn:Hkv; simpl.
    + rewrite IH. split; [by constructor | by inversion 1].
    + split; [done |]. inversion 1; congruence.
Qed.

Lemma find_unknown_Some (kwargs : list (string * Value)) (kv : string * Value) :
  kv ∈ kwargs → has_property kv.1 = false →
  ∃ kv', List.find (λ kv : string * Value, negb (has_property kv.1)) kwargs
         = Some kv'.
Proof.
  intros Hin Hkv.
  destruct (List.find _ kwargs) as [kv' |] eqn:Hfind; [by exists kv' |].
  apply find_unknown_None in Hfind.
  rewrite Forall_forall in Hfind. specialize (Hfind kv Hin). congruence.
Qed.

(** C1: a batch with an assigned field name outside the schema is
    aborted before anything is written: the command prints one message and
    the namespace (entity, snapshot, [modified]) and the tasks are as
    before, whatever the other assignments are.  So a run that changes the
    namespace has validated every field; and when every field is
    validated and the assignments go through, the entity is the one the
    assignments produce and [modified] is set. *)
Theorem set_batch_all_or_nothing (kwargs : list (string * Value))
    (opargs : list (string * string * Value)) (w : World) :
  ((∃ kv, kv ∈ kwargs ∧ has_property kv.1 = false) →
     ∃ msg, SetEntityCommand_run kwargs opargs w =
              (Ok tt, {| item := item w; tasks := tasks w;
                         output := output w ++ [msg] |})) ∧
  (∀ r w', SetEntityCommand_run kwargs opargs w = (r, w') →
           item w' ≠ item w →
           Forall (λ kv, has_property kv.1 = true) kwargs) ∧
  (Forall (λ kv, has_property kv.1 = true) kwargs →
   ∀ e', assign_kwargs kwargs (entity (item w)) = (Ok tt, e') →
         SetEntityCommand_run kwargs [] w =
           (Ok tt, {| item := {| name := name (item w); entity := e';
                                 orig_entity := orig_entity (item w);
                                 modified := true;
                                 saved := saved (item w) |};
                      tasks := tasks w; output := output w |})).
Proof.
  unfold SetEntityCommand_run. split_and!.
  - intros (kv & Hin & Hkv).
    destruct (find_unknown_Some kwargs kv Hin Hkv) as [kv' ->].
    by eexists.
  - intros r w' Hrun Hchanged.
    destruct (List.find _ kwargs) as [kv |] eqn:Hfind.
    + py_simpl. by inversion Hrun; subst.
    + by apply find_unknown_None.
  - intros Hall e' Hassign. apply find_unknown_None in Hall. rewrite Hall.
    destruct w as [[n e o m sv] t out]. py_simpl. by rewrite Hassign.
Qed.

(** ** Saving, discarding and deleting *)

(** C2: for an item that is not new, [save] submits the update task with
    exactly two arguments, the primary-key value of the snapshot and the
    diff, which carries no field whose value is the one of the snapshot;
    for a new item it submits the creation task with the entity.  Both
    register the [post_save] callback, and neither touches the item. *)
Theorem save_submits_key_and_diff (w : World) :
  (∀ pk, orig_entity (item w) !! primary_key_name = Some pk →
     TaskBasedSaveMixin_save false w =
       (Ok tt,
        {| item := item w;
           tasks := tasks w ++
             [{| task_name := update_task;
                 task_args :=
                   [ArgValue pk;
                    ArgDict (get_diff (entity (item w)) (orig_entity (item w)))];
                 task_callback := Some PostSave |}];
           output := output w |})) ∧
  (∀ k v, entity (item w) !! k = Some v →
          orig_entity (item w) !! k = Some v →
          get_diff (entity (item w)) (orig_entity (item w)) !! k = None) ∧
  TaskBasedSaveMixin_save true w =
    (Ok tt,
     {| item := item w;
        tasks := tasks w ++
          [{| task_name := create_task;
              task_args := [ArgDict (entity (item w))];
              task_callback := Some PostSave |}];
        output := output w |}).
Proof.
  unfold TaskBasedSaveMixin_save. destruct w as [i t out]. split_and!.
  - intros pk Hpk. py_simpl. unfold getitem. by rewrite Hpk.
  - simpl. intros k v Hv Ho. rewrite lookup_get_diff.
    case_decide as Hk; [| done].
    apply elem_of_get_changed_keys in Hk as (v' & Hv' & Hc).
    rewrite Ho in Hc. rewrite Hv in Hv'. injection Hv' as <-.
    by rewrite py_ne_refl in Hc.
  - by py_simpl.
Qed.

Lemma discard_returns (w w' : World) :
  DiscardEntityCommand_run w = (Ok tt, w') →
  entity (item w') = orig_entity (item w') ∧ modified (item w') = false.
Proof.
  unfold DiscardEntityCommand_run, load.
  destruct w as [[n e o m sv] t out]. intros Hrun. py_simpl.
  destruct sv; simpl in Hrun; [destruct (get_one n) as [e' | x] |];
    simpl in Hrun; by inversion Hrun; subst.
Qed.

(** C5 (amended): a [discard] that returns leaves the entity equal to
    the snapshot, the changed-key set and the diff empty and [modified]
    false.  On a saved record that [get_one] finds, entity and snapshot
    are the record fetched again under the name of the namespace, so
    the pending edits are dropped; on a record that is not saved
    nothing is fetched: the entity stays as edited and the snapshot is
    taken from it. *)
Theorem discard_reloads_saved_keeps_unsaved (w : World) :
  (saved (item w) = true →
   ∀ e, get_one (name (item w)) = Ok e →
        DiscardEntityCommand_run w =
          (Ok tt, {| item := {| name := name (item w); entity := e;
                                orig_entity := e; modified := false;
                                saved := true |};
                     tasks := tasks w; output := output w |})) ∧
  (saved (item w) = false →
   DiscardEntityCommand_run w =
     (Ok tt, {| item := {| name := name (item w);
                           entity := entity (item w);
                           orig_entity := entity (item w);
                           modified := false; saved := false |};
                tasks := tasks w; output := output w |})) ∧
  (∀ w', DiscardEntityCommand_run w = (Ok tt, w') →
     entity (item w') = orig_entity (item w') ∧
     get_changed_keys (entity (item w')) (orig_entity (item w')) = [] ∧
     get_diff (entity (item w')) (orig_entity (item w')) = ∅ ∧
     modified (item w') = false).
Proof.
  split_and!.
  - unfold DiscardEntityCommand_run, load.
    destruct w as [[n e0 o m sv] t out]. simpl. intros -> e He.
    py_simpl. by rewrite He.
  - unfold DiscardEntityCommand_run, load.
    destruct w as [[n e0 o m sv] t out]. simpl. intros ->. by py_simpl.
  - intros w' Hrun. apply discard_returns in Hrun as [Heq Hm].
    by rewrite Heq, get_changed_keys_same, get_diff_same.
Qed.

(** C7: when the single-record query finds no record, [delete] raises
    [NotFoundError] and the world, its list of submitted tasks included,
    is untouched; when it finds a record, [delete] submits the deletion
    task with that record's primary-key value. *)
Theorem delete_resolves_record_first (name : Value) (w : World) :
  (call_sync query_call [(primary_key_name, "=", name)]
     {["single" := VBool true]} = Ok None →
   delete name w = (Raise NotFoundError, w)) ∧
  (∀ record pk,
     call_sync query_call [(primary_key_name, "=", name)]
       {["single" := VBool true]} = Ok (Some record) →
     record !! primary_key_name = Some pk →
     delete name w =
       (Ok tt,
        {| item := item w;
           tasks := tasks w ++
             [{| task_name := delete_task; task_args := [ArgValue pk];
                 task_callback := None |}];
           output := output w |})).
Proof.
  unfold delete, get_one. split.
  - intros ->. by py_simpl.
  - intros record pk -> Hpk. py_simpl. unfold getitem. by rewrite Hpk.
Qed.

(** ** The dirty flag along the lifecycle *)

Lemma on_enter_in_sync (w w' : World) :
  on_enter w = (Ok tt, w') → in_sync w'.
Proof.
  unfold on_enter, load. destruct w as [[n e o m sv] t out]. py_simpl.
  intros Hrun _.
  destruct sv; simpl in Hrun; [destruct (get_one n) |];
    simpl in Hrun; by inversion Hrun; subst.
Qed.

Lemma set_returns_modified_or_same (kwargs : list (string * Value))
    (opargs : list (string * string * Value)) (w w' : World) :
  SetEntityCommand_run kwargs opargs w = (Ok tt, w') →
  modified (item w') = true ∨ item w' = item w.
Proof.
  unfold SetEntityCommand_run.
  destruct (List.find _ kwargs) as [kv |].
  - py_simpl. intros Hrun. right. by inversion Hrun; subst.
  - destruct w as [i t out]. py_simpl.
    destruct (assign_kwargs kwargs (entity i)) as [[[] |] e1]; simpl; [| done].
    destruct (apply_opargs opargs e1) as [[[] |] e2]; simpl; [| done].
    intros Hrun. left. by inversion Hrun; subst.
Qed.

Lemma exec_in_sync (op : Op) (w w' : World) :
  finished op = false → in_sync w → exec op w = (Ok tt, w') → in_sync w'.
Proof.
  unfold in_sync. intros Hfin Hw Hrun.
  destruct op as [kwargs opargs | | status |]; simpl in Hrun.
  - apply set_returns_modified_or_same in Hrun as [Hm | Hsame].
    + congruence.
    + by rewrite Hsame.
  - assert (item w' = item w) as ->; [| done].
    unfold save, TaskBasedSaveMixin_save in Hrun.
    destruct w as [i t out]. py_simpl.
    destruct (saved i); simpl in Hrun.
    + destruct (getitem (orig_entity i) primary_key_name); simpl in Hrun;
        by inversion Hrun; subst.
    + by inversion Hrun; subst.
  - simpl in Hfin. unfold post_save in Hrun. rewrite Hfin in Hrun.
    destruct w as [[n e o m sv] t out]. py_simpl.
    by inversion Hrun; subst.
  - intros _.
    by destruct (discard_returns w w' Hrun) as [-> _].
Qed.

Lemma for_each_exec_in_sync (ops : list Op) (w w' : World) :
  forallb (λ op, negb (finished op)) ops = true →
  in_sync w → for_each exec ops w = (Ok tt, w') → in_sync w'.
Proof.
  revert w. induction ops as [| op ops IH]; intros w Hfin Hw Hrun.
  - by inversion Hrun; subst.
  - simpl in Hfin. apply andb_true_iff in Hfin as [Hop Hops].
    apply negb_true_iff in Hop.
    simpl in Hrun. unfold bind in Hrun.
    destruct (exec op w) as [[[] | x] w1] eqn:Hexec; [| done].
    eauto using exec_in_sync.
Qed.

(** C6 (amended): at every point of a lifecycle that enters the
    namespace and then runs [set], [save] and [discard] commands and save
    callbacks, all returning without an exception and no callback
    delivering FINISHED, a non-empty changed-key set implies that
    [modified] is true. *)
Theorem changed_keys_imply_modified (ops : list Op) (w w' : World) :
  forallb (λ op, negb (finished op)) ops = true →
  lifecycle ops w = (Ok tt, w') →
  get_changed_keys (entity (item w')) (orig_entity (item w')) ≠ [] →
  modified (item w') = true.
Proof.
  intros Hfin Hrun Hchanged. unfold lifecycle, bind in Hrun.
  destruct (on_enter w) as [[[] | x] w0] eqn:Henter; [| done].
  assert (in_sync w') as Hsync.
  { eapply for_each_exec_in_sync; eauto using on_enter_in_sync. }
  destruct (modified (item w')) eqn:Hm; [done |].
  rewrite (Hsync Hm), get_changed_keys_same in Hchanged. done.
Qed.

(** ** Reading and writing through a mapping *)

(** X1: through a mapping whose [get] and [set] name the same key,
    [do_set] followed by [do_get] returns the coerced value. *)
Theorem do_set_then_do_get (self : PropertyMapping) (value coerced : Value)
    (obj : Entity) (k : string) :
  pm_get self = Key k →
  pm_set self = Key k →
  read_value value (pm_type self) = Ok coerced →
  ∃ obj', do_set read_value self value obj = (Ok tt, obj') ∧
          do_get self obj' = (Ok coerced, obj').
Proof.
  intros Hget Hset Hread. exists (<[k := coerced]> obj).
  unfold do_set, do_get. rewrite Hget, Hset. py_simpl. rewrite Hread.
  split; [done |]. by rewrite lookup_insert_eq.
Qed.

(** X2: [do_set] through a key setter writes that key and no other; when
    the coercion fails it writes nothing. *)
Theorem do_set_writes_one_key (self : PropertyMapping) (value : Value)
    (obj : Entity) (k : string) :
  pm_set self = Key k →
  match read_value value (pm_type self) with
  | Ok coerced =>
      ∃ obj', do_set read_value self value obj = (Ok tt, obj') ∧
              obj' !! k = Some coerced ∧
              ∀ j, j ≠ k → obj' !! j = obj !! j
  | Raise e => do_set read_value self value obj = (Raise e, obj)
  end.
Proof.
  intros Hset. unfold do_set. rewrite Hset. py_simpl.
  destruct (read_value value (pm_type self)) as [coerced | e]; [| done].
  exists (<[k := coerced]> obj). split_and!; [done | |].
  - by rewrite lookup_insert_eq.
  - intros j Hj. by rewrite lookup_insert_ne.
Qed.

Lemma filter_first_match {A} (f : A → bool) (l : list A) :
  match List.filter f l with
  | [] => True
  | m :: _ => ∃ before after,
                l = (before ++ m :: after)%list ∧ f m = true ∧
                Forall (λ x, f x = false) before
  end.
Proof.
  induction l as [| x l IH]; simpl; [done |].
  destruct (f x) eqn:Hx.
  - exists [], l. split_and!; [done | done | constructor].
  - destruct (List.filter f l) as [| m rest]; [done |].
    destruct IH as (before & after & -> & Hm & Hbefore).
    exists (x :: before), after. split_and!; [done | done |].
    by constructor.
Qed.

(** X4: [has_property] tells when [get_mapping] returns: the mapping
    returned is the first of the schema with that name, and a name the
    schema lacks makes [get_mapping] raise IndexError. *)
Theorem get_mapping_first_match (prop : string) :
  (has_property prop = false → get_mapping prop = Raise IndexError) ∧
  (has_property prop = true →
     ∃ before m after,
       property_mappings = (before ++ m :: after)%list ∧
       get_mapping prop = Ok m ∧
       pm_name m = prop ∧
       Forall (λ x, pm_name x ≠ prop) before).
Proof.
  unfold has_property, get_mapping.
  pose proof (filter_first_match (λ x, String.eqb (pm_name x) prop)
                property_mappings) as Hfirst.
  destruct (List.filter _ property_mappings) as [| m rest].
  - split; [done | discriminate].
  - split; [discriminate |]. intros _.
    destruct Hfirst as (before & after & Hl & Hm & Hbefore).
    exists before, m, after. split_and!; [done | done | |].
    + by apply String.eqb_eq.
    + eapply Forall_impl; [exact Hbefore |].
      intros x Hx. by apply String.eqb_neq.
Qed.

(** ** More on the [set] command *)

Lemma on_entity_run {A} (c : Py Entity A) (w : World) :
  on_item (on_entity c) w =
  (let '(r, e') := c (entity (item w)) in
   (r, set_item (set_entity e' (item w)) w)).
Proof.
  destruct w as [i t out]. py_simpl. by destruct (c (entity i)).
Qed.

Lemma set_run_validated (kwargs : list (string * Value))
    (opargs : list (string * string * Value)) (w : World) :
  Forall (λ kv, has_property kv.1 = true) kwargs →
  SetEntityCommand_run kwargs opargs w =
  (let '(r1, e1) := assign_kwargs kwargs (entity (item w)) in
   match r1 with
   | Raise e => (Raise e, set_item (set_entity e1 (item w)) w)
   | Ok _ =>
       let '(r2, e2) := apply_opargs opargs e1 in
       match r2 with
       | Raise e => (Raise e, set_item (set_entity e2 (item w)) w)
       | Ok _ => (Ok tt, set_item (set_modified true (set_entity e2 (item w))) w)
       end
   end).
Proof.
  intros Hall. unfold SetEntityCommand_run.
  apply find_unknown_None in Hall. rewrite Hall.
  destruct w as [i t out]. py_simpl.
  destruct (assign_kwargs kwargs (entity i)) as [[[] | e] e1]; simpl; [| done].
  by destruct (apply_opargs opargs e1) as [[[] | e] e2].
Qed.

(** X5: whatever its arguments and its outcome, [set] submits no task
    and leaves the snapshot, the [saved] flag and the name of the
    namespace as they were. *)
Theorem set_keeps_snapshot_and_tasks (kwargs : list (string * Value))
    (opargs : list (string * string * Value)) (w : World) :
  tasks (SetEntityCommand_run kwargs opargs w).2 = tasks w ∧
  orig_entity (item (SetEntityCommand_run kwargs opargs w).2)
    = orig_entity (item w) ∧
  saved (item (SetEntityCommand_run kwargs opargs w).2) = saved (item w) ∧
  name (item (SetEntityCommand_run kwargs opargs w).2) = name (item w).
Proof.
  destruct (List.find (λ kv : string * Value, negb (has_property kv.1)) kwargs)
    as [kv |] eqn:Hfind.
  - unfold SetEntityCommand_run. rewrite Hfind. by py_simpl.
  - apply find_unknown_None in Hfind.
    rewrite (set_run_validated kwargs opargs w Hfind).
    destruct (assign_kwargs kwargs (entity (item w))) as [[[] | e] e1];
      [| done].
    by destruct (apply_opargs opargs e1) as [[[] | e] e2].
Qed.

Lemma apply_opargs_remove_only (opargs : list (string * string * Value))
    (obj : Entity) :
  Forall (λ kopv : string * string * Value,
            kopv.1.2 = "-=" ∧
            ∃ m coerced, get_mapping kopv.1.1 = Ok m ∧ pm_type m = ARRAY ∧
                         read_value kopv.2 ARRAY = Ok coerced) opargs →
  apply_opargs opargs obj = (Ok tt, obj).
Proof.
  unfold apply_opargs.
  induction 1 as [| [[k op] v] opargs Hx _ IH]; [done |].
  destruct Hx as (Hop & m & coerced & Hm & Harr & Hread). simpl in *.
  subst op. simpl. unfold bind at 1. unfold bind at 1. unfold lift at 1.
  rewrite Hm. unfold bind at 1, ret at 1. unfold do_remove.
  rewrite Harr. case_decide; [done |]. unfold bind at 1, lift at 1.
  rewrite Hread. unfold ret at 1. exact IH.
Qed.

(** X6: a [set] whose arguments are all [-=] on array fields, with
    values that coerce, returns with the entity as it was and [modified]
    set: nothing is removed and the namespace counts as edited. *)
Theorem set_remove_only_marks_modified
    (opargs : list (string * string * Value)) (w : World) :
  Forall (λ kopv : string * string * Value,
            kopv.1.2 = "-=" ∧
            ∃ m coerced, get_mapping kopv.1.1 = Ok m ∧ pm_type m = ARRAY ∧
                         read_value kopv.2 ARRAY = Ok coerced) opargs →
  SetEntityCommand_run [] opargs w =
    (Ok tt, {| item := {| name := name (item w); entity := entity (item w);
                          orig_entity := orig_entity (item w);
                          modified := true; saved := saved (item w) |};
               tasks := tasks w; output := output w |}).
Proof.
  intros Hall. rewrite set_run_validated by constructor.
  simpl. by rewrite (apply_opargs_remove_only opargs _ Hall).
Qed.

Lemma do_append_key_getter (m : PropertyMapping) (v : Value) (obj : Entity)
    (k : string) :
  pm_get m = Key k → ∃ e, do_append read_value m v obj = (Raise e, obj).
Proof.
  intros Hget. unfold do_append. case_decide; [by eexists |]. py_simpl.
  destruct (read_value v (pm_type m)); simpl; [| by eexists].
  rewrite Hget. by eexists.
Qed.

(** X7: a [set] that reaches a [+=] on a mapping whose [get] is a key
    name never completes: it raises, [modified] stays as it was, and the
    [field=value] assignments run before it stay written. *)
Theorem set_append_never_completes (kwargs : list (string * Value))
    (k : string) (v : Value) (rest : list (string * string * Value))
    (w : World) (m : PropertyMapping) (kget : string) :
  Forall (λ kv, has_property kv.1 = true) kwargs →
  get_mapping k = Ok m →
  pm_get m = Key kget →
  ∃ e, SetEntityCommand_run kwargs ((k, "+=", v) :: rest) w =
         (Raise e,
          {| item := {| name := name (item w);
                        entity := (assign_kwargs kwargs (entity (item w))).2;
                        orig_entity := orig_entity (item w);
                        modified := modified (item w);
                        saved := saved (item w) |};
             tasks := tasks w; output := output w |}).
Proof.
  intros Hall Hm Hget. rewrite set_run_validated by done.
  destruct (assign_kwargs kwargs (entity (item w))) as [[[] | e] e1]; simpl;
    [| by eexists].
  unfold apply_opargs. simpl. unfold bind at 1. unfold bind at 1.
  unfold lift at 1. rewrite Hm. unfold bind at 1.
  destruct (do_append_key_getter m v e1 kget Hget) as [e ->].
  by eexists.
Qed.

(** X8: the operator of an argument is checked only after the
    [field=value] assignments were written: an operator other than [+=]
    and [-=] raises CommandException with the entity already assigned and
    [modified] not set. *)
Theorem set_invalid_operator_raises_late (kwargs : list (string * Value))
    (k op : string) (v : Value) (rest : list (string * string * Value))
    (w : World) (e' : Entity) :
  op ≠ "+=" → op ≠ "-=" →
  Forall (λ kv, has_property kv.1 = true) kwargs →
  assign_kwargs kwargs (entity (item w)) = (Ok tt, e') →
  SetEntityCommand_run kwargs ((k, op, v) :: rest) w =
    (Raise (CommandException "Syntax error, invalid operator used"),
     {| item := {| name := name (item w); entity := e';
                   orig_entity := orig_entity (item w);
                   modified := modified (item w); saved := saved (item w) |};
        tasks := tasks w; output := output w |}).
Proof.
  intros Hplus Hminus Hall Hassign. rewrite set_run_validated by done.
  rewrite Hassign. unfold apply_opargs. simpl.
  apply String.eqb_neq in Hplus, Hminus. unfold bind at 1.
  by rewrite Hplus, Hminus.
Qed.

(** ** The [get] command *)

Lemma get_mapping_has_property (prop : string) (m : PropertyMapping) :
  get_mapping prop = Ok m → has_property prop = true.
Proof.
  unfold get_mapping, has_property.
  by destruct (List.filter _ property_mappings).
Qed.

(** X9: [get] without an argument prints the arguments-count message;
    for a first argument outside the schema it prints the not-found
    message; for one whose mapping reads a key it prints the value under
    that key, [None] when the entity lacks it.  In the three cases it
    returns, reads only its first argument and leaves the namespace and
    the tasks as they were. *)
Theorem get_prints_and_keeps (args : list string) (w : World) :
  (args = [] →
     GetEntityCommand_run args w =
       (Ok tt, {| item := item w; tasks := tasks w;
                  output := output w ++ ["Wrong arguments count"] |})) ∧
  (∀ arg0 rest, args = arg0 :: rest → has_property arg0 = false →
     GetEntityCommand_run args w =
       (Ok tt, {| item := item w; tasks := tasks w;
                  output := output w ++ ["Property " ++ arg0 ++ " not found"] |})) ∧
  (∀ arg0 rest m k, args = arg0 :: rest → get_mapping arg0 = Ok m →
     pm_get m = Key k →
     GetEntityCommand_run args w =
       (Ok tt, {| item := item w; tasks := tasks w;
                  output := output w ++
                    [shown (default VNone (entity (item w) !! k))] |})).
Proof.
  unfold GetEntityCommand_run. destruct w as [[n e o m0 sv] t out].
  split_and!.
  - by intros ->.
  - intros arg0 rest -> Hhas. by rewrite Hhas.
  - intros arg0 rest m k -> Hm Hget.
    rewrite (get_mapping_has_property arg0 m Hm). simpl.
    unfold get_property, do_get. py_simpl. rewrite Hm. simpl.
    by rewrite Hget.
Qed.

(** X10: after [set field=value] on a mapping whose [get] and [set] name
    the same key, [get field] prints the coerced value. *)
Theorem set_then_get_prints_coerced (field : string) (value coerced : Value)
    (w : World) (m : PropertyMapping) (k : string) :
  get_mapping field = Ok m →
  pm_get m = Key k →
  pm_set m = Key k →
  read_value value (pm_type m) = Ok coerced →
  ∃ w1, SetEntityCommand_run [(field, value)] [] w = (Ok tt, w1) ∧
        GetEntityCommand_run [field] w1 =
          (Ok tt, {| item := item w1; tasks := tasks w1;
                     output := output w1 ++ [shown coerced] |}).
Proof.
  intros Hm Hget Hset Hread.
  assert (has_property field = true) as Hhas.
  { unfold has_property. unfold get_mapping in Hm.
    by destruct (List.filter _ property_mappings). }
  eexists. split.
  - rewrite set_run_validated by (repeat constructor; done).
    unfold assign_kwargs, do_set. simpl. py_simpl.
    rewrite Hm. simpl. rewrite Hread, Hset. simpl. reflexivity.
  - unfold GetEntityCommand_run. rewrite Hhas. simpl.
    unfold get_property, do_get. py_simpl. rewrite Hm. simpl.
    rewrite Hget. simpl. by rewrite lookup_insert_eq.
Qed.

(** ** The diff as a patch *)

(** X11: writing the diff over the snapshot gives back the entity on
    every key of the entity, up to Python equality; and the diff never
    holds a key or a value the entity does not hold. *)
Theorem diff_patches_snapshot (entity orig_entity : Entity) :
  (∀ k v, entity !! k = Some v →
          ∃ v', (get_diff entity orig_entity ∪ orig_entity) !! k = Some v' ∧
                py_eq v v' = true) ∧
  get_diff entity orig_entity ⊆ entity.
Proof.
  split.
  - intros k v Hv. rewrite lookup_union, lookup_get_diff.
    case_decide as Hk.
    + rewrite Hv. exists v. split; [| apply py_eq_refl].
      by destruct (orig_entity !! k).
    + destruct (orig_entity !! k) as [x |] eqn:Ho.
      * exists x. split; [done |].
        destruct (py_eq v x) eqn:Heq; [done |]. exfalso. apply Hk.
        apply elem_of_get_changed_keys. exists v. split; [done |].
        rewrite Ho. unfold py_ne. by rewrite Heq.
      * exfalso. apply Hk. apply elem_of_get_changed_keys.
        exists v. split; [done |]. by rewrite Ho.
  - apply map_subseteq_spec. intros k v. rewrite lookup_get_diff.
    by case_decide.
Qed.

(** ** Entering, saving and deleting *)

(** X12: when [on_enter] returns, the entity equals the snapshot and the
    diff is empty, while [modified], [saved], the name, the tasks and the
    output are as before; a saved record holds what [get_one] returned, a
    record that is not saved keeps its entity.  When it raises, it is
    with the error of [get_one] on a saved record, and nothing changed. *)
Theorem on_enter_takes_snapshot (w : World) :
  match on_enter w with
  | (Ok _, w') =>
      entity (item w') = orig_entity (item w') ∧
      get_diff (entity (item w')) (orig_entity (item w')) = ∅ ∧
      modified (item w') = modified (item w) ∧
      saved (item w') = saved (item w) ∧
      name (item w') = name (item w) ∧
      tasks w' = tasks w ∧ output w' = output w ∧
      (if saved (item w) then get_one (name (item w)) = Ok (entity (item w'))
       else entity (item w') = entity (item w))
  | (Raise e, w') =>
      w' = w ∧ saved (item w) = true ∧ get_one (name (item w)) = Raise e
  end.
Proof.
  unfold on_enter, load. destruct w as [[n e o m sv] t out]. py_simpl.
  destruct sv; simpl.
  - destruct (get_one n) as [e' | x]; simpl; [| done].
    by rewrite get_diff_same.
  - by rewrite get_diff_same.
Qed.

(** X13: a [discard] whose record cannot be fetched raises the error of
    [get_one] and changes nothing: the edits and [modified] stay. *)
Theorem discard_failure_keeps_edits (w : World) (e : Exn) :
  saved (item w) = true →
  get_one (name (item w)) = Raise e →
  DiscardEntityCommand_run w = (Raise e, w).
Proof.
  unfold DiscardEntityCommand_run, load.
  destruct w as [[n en o m sv] t out]. simpl. intros -> Hget.
  py_simpl. by rewrite Hget.
Qed.

(** X14: [save] either returns, having submitted exactly one task with
    the [post_save] callback and left the namespace and the output alone
    (the creation task with the entity for a record that is not saved,
    the update task with the snapshot's key and the diff for a saved
    one), or raises KeyError on a saved record whose snapshot lacks the
    primary key, having changed nothing. *)
Theorem save_submits_one_task_or_nothing (w : World) :
  match save w with
  | (Ok _, w') =>
      item w' = item w ∧ output w' = output w ∧
      ∃ t, tasks w' = (tasks w ++ [t])%list ∧
           task_callback t = Some PostSave ∧
           if saved (item w) then
             ∃ pk, orig_entity (item w) !! primary_key_name = Some pk ∧
                   task_name t = update_task ∧
                   task_args t =
                     [ArgValue pk;
                      ArgDict (get_diff (entity (item w)) (orig_entity (item w)))]
           else
             task_name t = create_task ∧
             task_args t = [ArgDict (entity (item w))]
  | (Raise e, w') =>
      w' = w ∧ e = KeyError primary_key_name ∧ saved (item w) = true ∧
      orig_entity (item w) !! primary_key_name = None
  end.
Proof.
  unfold save, TaskBasedSaveMixin_save. destruct w as [[n e o m sv] t out].
  py_simpl. destruct sv; simpl.
  - unfold getitem. destruct (o !! primary_key_name) as [pk |] eqn:Hpk; simpl.
    + split_and!; [done | done |]. eexists. split_and!; [done | done |].
      by exists pk.
    + done.
  - split_and!; [done | done |]. by eexists.
Qed.

(** X15: once the callback was told FINISHED the record counts as saved,
    so a further [save] is an update keyed by the snapshot; when the
    snapshot lacks the primary key, as the one of a record created from
    a skeleton without it, that [save] raises KeyError and submits
    nothing. *)
Theorem save_after_finished_is_update (w : World) :
  let w1 := (run_callback PostSave "FINISHED" w).2 in
  (orig_entity (item w) !! primary_key_name = None →
     save w1 = (Raise (KeyError primary_key_name), w1)) ∧
  (∀ pk, orig_entity (item w) !! primary_key_name = Some pk →
     save w1 =
       (Ok tt,
        {| item := item w1;
           tasks := tasks w ++
             [{| task_name := update_task;
                 task_args :=
                   [ArgValue pk;
                    ArgDict (get_diff (entity (item w)) (orig_entity (item w)))];
                 task_callback := Some PostSave |}];
           output := output w |})).
Proof.
  unfold save, TaskBasedSaveMixin_save, run_callback, post_save.
  destruct w as [[n e o m sv] t out]. py_simpl. unfold getitem. split.
  - by intros ->.
  - by intros pk ->.
Qed.

(** X16: the [delete] command submits a task only when it has an argument
    whose record [get_one] finds and which holds the primary key: the
    deletion task of that key, from its first argument alone.  In every
    other case it raises and nothing is submitted or changed. *)
Theorem delete_command_submits_or_nothing (args : list Value) (w : World) :
  match DeleteEntityCommand_run args w with
  | (Ok _, w') =>
      ∃ arg0 rest record pk,
        args = arg0 :: rest ∧ get_one arg0 = Ok record ∧
        record !! primary_key_name = Some pk ∧
        w' = {| item := item w;
                tasks := tasks w ++
                  [{| task_name := delete_task; task_args := [ArgValue pk];
                      task_callback := None |}];
                output := output w |}
  | (Raise e, w') => w' = w
  end.
Proof.
  unfold DeleteEntityCommand_run, delete. destruct args as [| arg0 rest].
  - done.
  - py_simpl. destruct (get_one arg0) as [record | x] eqn:Hget; simpl; [| done].
    unfold getitem.
    destruct (record !! primary_key_name) as [pk |] eqn:Hpk; simpl; [| done].
    by exists arg0, rest, record, pk.
Qed.

(** X17: of the operations of the lifecycle only [discard] can change the
    snapshot and only [set] and [discard] the entity, whatever the
    outcome of the operation. *)
Theorem only_set_and_discard_write (op : Op) (w : World) :
  (op ≠ OpDiscard →
     orig_entity (item (exec op w).2) = orig_entity (item w)) ∧
  (op = OpSave ∨ (∃ status, op = OpCallback status) →
     entity (item (exec op w).2) = entity (item w)).
Proof.
  split.
  - intros Hop. destruct op as [kwargs opargs | | status |]; simpl; [| | | done].
    + destruct (List.find (λ kv : string * Value, negb (has_property kv.1))
                  kwargs) as [kv |] eqn:Hfind.
      * unfold SetEntityCommand_run. rewrite Hfind. by py_simpl.
      * apply find_unknown_None in Hfind.
        rewrite (set_run_validated kwargs opargs w Hfind).
        destruct (assign_kwargs kwargs (entity (item w))) as [[[] | e] e1];
          [| done].
        by destruct (apply_opargs opargs e1) as [[[] | e] e2].
    + unfold save, TaskBasedSaveMixin_save.
      destruct w as [[n e o m sv] t out]. py_simpl. destruct sv; simpl; [| done].
      by destruct (getitem o primary_key_name).
    + unfold post_save. destruct w as [[n e o m sv] t out]. py_simpl.
      by destruct (String.eqb status "FINISHED").
  - intros [-> | [status ->]]; simpl.
    + unfold save, TaskBasedSaveMixin_save.
      destruct w as [[n e o m sv] t out]. py_simpl. destruct sv; simpl; [| done].
      by destruct (getitem o primary_key_name).
    + unfold post_save. destruct w as [[n e o m sv] t out]. py_simpl.
      by destruct (String.eqb status "FINISHED").
Qed.

(** ** The [create] command *)

(** X18: a [create] with a field name outside the schema submits no
    task, whatever its other arguments; without a positional argument it
    prints the not-found message for the new, unsaved namespace. *)
Theorem create_unknown_field_submits_nothing (args : list Value)
    (kwargs : list (string * Value)) (w : World) :
  (∃ kv, kv ∈ kwargs ∧ has_property kv.1 = false) →
  tasks (CreateEntityCommand_run args kwargs w).2 = tasks w ∧
  (args = [] →
     ∃ msg, CreateEntityCommand_run args kwargs w =
              (Ok tt, {| item := SingleItemNamespace_init VNone skeleton_entity;
                         tasks := tasks w; output := output w ++ [msg] |})).
Proof.
  intros (kv & Hin & Hkv).
  destruct (find_unknown_Some kwargs kv Hin Hkv) as [kv' Hfind].
  destruct kwargs as [| kv0 kwargs]; [by apply elem_of_nil in Hin |].
  unfold CreateEntityCommand_run. destruct w as [i t out]. split.
  - destruct args as [| arg0 rest].
    + rewrite Hfind. by py_simpl.
    + destruct primary_key as [prop |]; [| by py_simpl].
      rewrite Hfind. py_simpl.
      by destruct (do_set read_value prop arg0 skeleton_entity) as [[[] | e] e0].
  - intros ->. rewrite Hfind. py_simpl. by eexists.
Qed.

(** X19: a [create] whose fields are all in the schema and whose
    assignments go through submits one creation task carrying the
    skeleton entity with the assignments written over it (the positional
    argument first, through the primary-key mapping), with the
    [post_save] callback; the new namespace is neither saved nor
    modified and its snapshot is the skeleton. *)
Theorem create_submits_assigned_skeleton (args : list Value)
    (kwargs : list (string * Value)) (w : World) (e0 e' : Entity) :
  match args with
  | [] => kwargs ≠ [] ∧ e0 = skeleton_entity
  | arg0 :: _ =>
      ∃ prop, primary_key = Some prop ∧
              do_set read_value prop arg0 skeleton_entity = (Ok tt, e0)
  end →
  Forall (λ kv, has_property kv.1 = true) kwargs →
  assign_kwargs kwargs e0 = (Ok tt, e') →
  CreateEntityCommand_run args kwargs w =
    (Ok tt,
     {| item := {| name := VNone; entity := e';
                   orig_entity := skeleton_entity;
                   modified := false; saved := false |};
        tasks := tasks w ++
          [{| task_name := create_task; task_args := [ArgDict e'];
              task_callback := Some PostSave |}];
        output := output w |}).
Proof.
  intros Hargs Hall Hassign. apply find_unknown_None in Hall.
  unfold CreateEntityCommand_run, TaskBasedSaveMixin_save.
  destruct w as [i t out]. destruct args as [| arg0 rest].
  - destruct Hargs as [Hne ->].
    destruct kwargs as [| kv0 kwargs]; [done |].
    rewrite Hall. py_simpl. by rewrite Hassign.
  - destruct Hargs as (prop & -> & Hset).
    rewrite Hall. py_simpl. rewrite Hset. simpl. by rewrite Hassign.
Qed.

(** ** The [show] command of a collection *)

Lemma for_each_raises {S A} (body : A → Py S unit) (l : list A) (x : A) :
  x ∈ l →
  (∀ s, ∃ e s', body x s = (Raise e, s')) →
  ∀ s, ∃ e s', for_each body l s = (Raise e, s').
Proof.
  intros Hin Hx. induction l as [| y l IH]; intros s.
  - by apply elem_of_nil in Hin.
  - simpl. unfold bind.
    apply elem_of_cons in Hin as [<- | Hin].
    + destruct (Hx s) as (e & s' & ->). by eexists _, _.
    + destruct (body y s) as [[[] | e] s1]; [| by eexists _, _].
      apply (IH Hin).
Qed.

Lemma has_property_false_get_mapping (prop : string) :
  has_property prop = false → get_mapping prop = Raise IndexError.
Proof.
  unfold get_mapping, has_property.
  by destruct (List.filter _ property_mappings).
Qed.

(** X20: [show] with a filter on a field outside the schema raises
    before anything is queried: a [field=value] filter whose name is
    neither in the schema nor one of [limit], [sort] and [dir], or an
    operator filter on an unknown field, leaves no request. *)
Theorem list_unknown_field_raises (kwargs : list (string * Value))
    (opargs : list (string * string * Value)) :
  (∃ kv, kv ∈ kwargs ∧ kv.1 ≠ "limit" ∧ kv.1 ≠ "sort" ∧ kv.1 ≠ "dir" ∧
         has_property kv.1 = false) ∨
  (∃ kopv, kopv ∈ opargs ∧ has_property kopv.1.1 = false) →
  ∃ e, ListCommand_request kwargs opargs = Raise e.
Proof.
  unfold ListCommand_request, bind, list_kwargs, list_opargs.
  intros [(kv & Hin & Hl & Hs & Hd & Hhas) | (kopv & Hin & Hhas)].
  - match goal with
    | |- context [for_each ?b kwargs ?s0] =>
        destruct (for_each_raises b kwargs kv Hin) with s0 as (e & s' & Hrun)
    end.
    + intros s. destruct kv as [k v]. simpl in *.
      apply String.eqb_neq in Hl, Hs, Hd. rewrite Hl, Hs, Hd, Hhas. simpl.
      by eexists _, _.
    + rewrite Hrun. by eexists.
  - match goal with
    | |- context [for_each ?b kwargs ?s0] =>
        destruct (for_each b kwargs s0) as [[[] | e] r1]; [| by eexists]
    end.
    match goal with
    | |- context [for_each ?b opargs ?s0] =>
        destruct (for_each_raises b opargs kopv Hin) with s0 as (e & s' & Hrun)
    end.
    + intros s. destruct kopv as [[k op] v]. simpl in *.
      unfold bind, lift. rewrite (has_property_false_get_mapping k Hhas).
      by eexists _, _.
    + rewrite Hrun. by eexists.
Qed.

Lemma for_each_cons_ok {S A} (body : A → Py S unit) (x : A) (l : list A)
    (s s' : S) :
  for_each body (x :: l) s = (Ok tt, s') →
  ∃ s1, body x s = (Ok tt, s1) ∧ for_each body l s1 = (Ok tt, s').
Proof.
  simpl. unfold bind.
  destruct (body x s) as [[[] | e] s1]; [| done]. by exists s1.
Qed.

Lemma list_kwargs_shape (kwargs : list (string * Value)) (r r' : ListRequest) :
  list_kwargs kwargs r = (Ok tt, r') →
  Forall (λ p : string * string * Value,
            has_property p.1.1 = true ∧ p.1.2 ≠ "~=") (params r) →
  (∀ k, is_Some (options r !! k) → k = "limit" ∨ k = "sort" ∨ k = "dir") →
  Forall (λ p : string * string * Value,
            has_property p.1.1 = true ∧ p.1.2 ≠ "~=") (params r') ∧
  (∀ k, is_Some (options r' !! k) → k = "limit" ∨ k = "sort" ∨ k = "dir") ∧
  length (params r') =
    (length (params r) +
     length (List.filter
               (λ kv : string * Value,
                  negb (String.eqb kv.1 "limit" || String.eqb kv.1 "sort"
                        || String.eqb kv.1 "dir")) kwargs))%nat.
Proof.
  unfold list_kwargs. revert r.
  induction kwargs as [| [k v] kwargs IH]; intros r Hrun Hp Ho.
  - inversion Hrun; subst. simpl. split_and!; [done | done | lia].
  - apply for_each_cons_ok in Hrun as (r1 & Hbody & Hrest). simpl.
    destruct (String.eqb k "limit") eqn:Hl; simpl.
    { unfold bind, lift, modify in Hbody.
      destruct (py_int v) as [n | x]; [| done]. inversion Hbody; subst.
      apply IH in Hrest; [done | done |].
      intros k'. simpl. rewrite lookup_insert. case_decide; [| apply Ho].
      subst. by left. }
    destruct (String.eqb k "sort") eqn:Hs; simpl.
    { unfold modify in Hbody. inversion Hbody; subst.
      apply IH in Hrest; [done | done |].
      intros k'. simpl. rewrite lookup_insert. case_decide; [| apply Ho].
      subst. right. by left. }
    destruct (String.eqb k "dir") eqn:Hd; simpl.
    { unfold modify in Hbody. inversion Hbody; subst.
      apply IH in Hrest; [done | done |].
      intros k'. simpl. rewrite lookup_insert. case_decide; [| apply Ho].
      subst. right. by right. }
    destruct (has_property k) eqn:Hhas; simpl in Hbody; [| done].
    unfold bind, lift, modify in Hbody.
    destruct (get_mapping k) as [prop | x]; [| done].
    destruct (read_value v (pm_type prop)) as [v' | x]; [| done].
    inversion Hbody; subst.
    apply IH in Hrest; simpl; [| | done].
    + destruct Hrest as (Hp' & Ho' & Hlen). split_and!; [done | done |].
      rewrite Hlen. simpl. rewrite length_app. simpl. lia.
    + apply Forall_app. split; [done |]. by repeat constructor.
Qed.

Lemma list_opargs_shape (opargs : list (string * string * Value))
    (r r' : ListRequest) :
  list_opargs opargs r = (Ok tt, r') →
  Forall (λ p : string * string * Value,
            has_property p.1.1 = true ∧ p.1.2 ≠ "~=") (params r) →
  Forall (λ p : string * string * Value,
            has_property p.1.1 = true ∧ p.1.2 ≠ "~=") (params r') ∧
  options r' = options r ∧
  length (params r') = (length (params r) + length opargs)%nat.
Proof.
  unfold list_opargs. revert r.
  induction opargs as [| [[k op] v] opargs IH]; intros r Hrun Hp.
  - inversion Hrun; subst. simpl. split_and!; [done | done | lia].
  - apply for_each_cons_ok in Hrun as (r1 & Hbody & Hrest).
    unfold bind, lift, modify in Hbody.
    destruct (get_mapping k) as [prop | x] eqn:Hm; [| done].
    destruct (read_value v (pm_type prop)) as [v' | x]; [| done].
    inversion Hbody; subst.
    apply IH in Hrest; simpl.
    + destruct Hrest as (Hp' & Ho' & Hlen). split_and!; [done | done |].
      rewrite Hlen. simpl. rewrite length_app. simpl. lia.
    + apply Forall_app. split; [done |]. repeat constructor; simpl.
      * by eapply get_mapping_has_property.
      * destruct (String.eqb op "~=") eqn:Hop; [done |].
        by apply String.eqb_neq.
Qed.

Lemma list_kwargs_filters (kwargs : list (string * Value)) (r r' : ListRequest) :
  list_kwargs kwargs r = (Ok tt, r') →
  ∃ ps, params r' = (params r ++ ps)%list ∧
        Forall2 (λ (kv : string * Value) (p : string * string * Value),
                   p.1.1 = kv.1 ∧ p.1.2 = "=" ∧
                   ∃ m, get_mapping kv.1 = Ok m ∧
                        read_value kv.2 (pm_type m) = Ok p.2)
          (List.filter
             (λ kv : string * Value,
                negb (String.eqb kv.1 "limit" || String.eqb kv.1 "sort"
                      || String.eqb kv.1 "dir")) kwargs) ps.
Proof.
  unfold list_kwargs. revert r.
  induction kwargs as [| [k v] kwargs IH]; intros r Hrun.
  - inversion Hrun; subst. exists []. split; [by rewrite app_nil_r | constructor].
  - apply for_each_cons_ok in Hrun as (r1 & Hbody & Hrest). simpl.
    destruct (String.eqb k "limit") eqn:Hl; simpl.
    { unfold bind, lift, modify in Hbody.
      destruct (py_int v) as [n | x]; [| done]. inversion Hbody; subst.
      by apply IH in Hrest. }
    destruct (String.eqb k "sort") eqn:Hs; simpl.
    { unfold modify in Hbody. inversion Hbody; subst. by apply IH in Hrest. }
    destruct (String.eqb k "dir") eqn:Hd; simpl.
    { unfold modify in Hbody. inversion Hbody; subst. by apply IH in Hrest. }
    destruct (has_property k) eqn:Hhas; simpl in Hbody; [| done].
    unfold bind, lift, modify in Hbody.
    destruct (get_mapping k) as [prop | x] eqn:Hm; [| done].
    destruct (read_value v (pm_type prop)) as [v' | x] eqn:Hread; [| done].
    inversion Hbody; subst.
    apply IH in Hrest as (ps & Hps & Hall). simpl in Hps.
    exists ((k, "=", v') :: ps). split.
    + by rewrite Hps, <- app_assoc.
    + constructor; [| done]. simpl. split_and!; [done | done |].
      by exists prop.
Qed.

Lemma list_opargs_filters (opargs : list (string * string * Value))
    (r r' : ListRequest) :
  list_opargs opargs r = (Ok tt, r') →
  ∃ ps, params r' = (params r ++ ps)%list ∧
        Forall2 (λ (kopv p : string * string * Value),
                   p.1.1 = kopv.1.1 ∧
                   p.1.2 = (if String.eqb kopv.1.2 "~=" then "~"
                            else kopv.1.2) ∧
                   ∃ m, get_mapping kopv.1.1 = Ok m ∧
                        read_value kopv.2 (pm_type m) = Ok p.2)
          opargs ps.
Proof.
  unfold list_opargs. revert r.
  induction opargs as [| [[k op] v] opargs IH]; intros r Hrun.
  - inversion Hrun; subst. exists []. split; [by rewrite app_nil_r | constructor].
  - apply for_each_cons_ok in Hrun as (r1 & Hbody & Hrest).
    unfold bind, lift, modify in Hbody.
    destruct (get_mapping k) as [prop | x] eqn:Hm; [| done].
    destruct (read_value v (pm_type prop)) as [v' | x] eqn:Hread; [| done].
    inversion Hbody; subst.
    apply IH in Hrest as (ps & Hps & Hall). simpl in Hps.
    exists ((k, if String.eqb op "~=" then "~" else op, v') :: ps). split.
    + by rewrite Hps, <- app_assoc.
    + constructor; [| done]. simpl. split_and!; [done | done |].
      by exists prop.
Qed.

(** X21: when [show] gets as far as its query, the filters it hands
    over are, in order, one for each [field=value] argument other than
    [limit], [sort] and [dir], with that field, the operator [=] and the
    coerced value, then one for each operator argument, with its field,
    its operator ([~] in place of [~=]) and the coerced value; so every
    filter names a field of the schema and none carries [~=]; and the
    options hold nothing but [limit], [sort] and [dir]. *)
Theorem list_request_shape (kwargs : list (string * Value))
    (opargs : list (string * string * Value)) (request : ListRequest)
    (cols : list Column) :
  ListCommand_request kwargs opargs = Ok (request, cols) →
  (∃ ps1 ps2,
     params request = (ps1 ++ ps2)%list ∧
     Forall2 (λ (kv : string * Value) (p : string * string * Value),
                p.1.1 = kv.1 ∧ p.1.2 = "=" ∧
                ∃ m, get_mapping kv.1 = Ok m ∧
                     read_value kv.2 (pm_type m) = Ok p.2)
       (List.filter
          (λ kv : string * Value,
             negb (String.eqb kv.1 "limit" || String.eqb kv.1 "sort"
                   || String.eqb kv.1 "dir")) kwargs) ps1 ∧
     Forall2 (λ (kopv p : string * string * Value),
                p.1.1 = kopv.1.1 ∧
                p.1.2 = (if String.eqb kopv.1.2 "~=" then "~"
                         else kopv.1.2) ∧
                ∃ m, get_mapping kopv.1.1 = Ok m ∧
                     read_value kopv.2 (pm_type m) = Ok p.2)
       opargs ps2) ∧
  Forall (λ p : string * string * Value,
            has_property p.1.1 = true ∧ p.1.2 ≠ "~=") (params request) ∧
  (∀ k, is_Some (options request !! k) →
        k = "limit" ∨ k = "sort" ∨ k = "dir") ∧
  length (params request) =
    (length (List.filter
               (λ kv : string * Value,
                  negb (String.eqb kv.1 "limit" || String.eqb kv.1 "sort"
                        || String.eqb kv.1 "dir")) kwargs)
     + length opargs)%nat.
Proof.
  unfold ListCommand_request, bind. intros Hrun.
  destruct (list_kwargs kwargs {| params := []; options := ∅ |})
    as [[[] | e] r1] eqn:Hkw; [| done].
  destruct (list_opargs opargs r1) as [[[] | e] r2] eqn:Hop; [| done].
  inversion Hrun; subst.
  pose proof (list_kwargs_filters _ _ _ Hkw) as (ps1 & Hps1 & Hall1).
  pose proof (list_opargs_filters _ _ _ Hop) as (ps2 & Hps2 & Hall2).
  apply list_kwargs_shape in Hkw as (Hp1 & Ho1 & Hlen1);
    [| by apply Forall_nil | intros k [x Hx]; simpl in Hx; by rewrite lookup_empty in Hx].
  apply list_opargs_shape in Hop as (Hp2 & Ho2 & Hlen2); [| done].
  split_and!; [| done | by rewrite Ho2 | simpl in *; lia].
  exists ps1, ps2. split_and!; [| done | done].
  rewrite Hps2, Hps1. done.
Qed.

(** ** Names and command tables *)

(** X22: with a key-named primary key [get_name] never raises and never
    changes the namespace.  The name it shows is the primary-key value
    of the entity, or the name of the namespace when the entity is
    empty, and [unnamed] when that value is false in Python (absent,
    [None], empty, zero); it comes in brackets unless the record is saved
    and not modified. *)
Theorem get_name_display (this : Item) (pk : PropertyMapping) (k : string) :
  primary_key = Some pk →
  pm_get pk = Key k →
  ∃ nm,
    truthy nm = true ∧
    get_name this =
      (Ok (if saved this && negb (modified this) then nm
           else VStr ("[" ++ py_str nm ++ "]")), this) ∧
    (entity this = ∅ →
       nm = if truthy (name this) then name this else VStr "unnamed") ∧
    (entity this ≠ ∅ →
       nm = if truthy (default VNone (entity this !! k))
            then default VNone (entity this !! k) else VStr "unnamed").
Proof.
  intros Hpk Hget. unfold get_name, primary_key_value. rewrite Hpk.
  unfold do_get. rewrite Hget. destruct this as [n e o m sv]. py_simpl.
  destruct (decide (map_to_list e = [])) as [He | He].
  - apply map_to_list_empty_iff in He. subst e. simpl.
    exists (if truthy n then n else VStr "unnamed").
    split_and!; [by destruct (truthy n) eqn:Hn | | done | done].
    by destruct (sv && negb m).
  - assert (e ≠ ∅) as Hne by (by rewrite <- map_to_list_empty_iff).
    simpl.
    exists (if truthy (default VNone (e !! k)) then default VNone (e !! k)
            else VStr "unnamed").
    split_and!; [by destruct (truthy (default VNone (e !! k))) eqn:Hn | | done | done].
    by destruct (sv && negb m).
Qed.

(** X23: the table of commands of an item namespace, name by name: a
    command of the namespace's own comes first; otherwise [?], [get] and
    [show] are the index, get and show commands, [set], [save] and
    [discard] are the set, save and discard commands under [allow_edit]
    and are absent without it, and no other name is offered.  So the
    set, save and discard commands are reached only under [allow_edit]
    or through the namespace's own commands. *)
Theorem item_commands_gate_editing :
  (∀ c, ItemNamespace_commands !! c =
        match subcommands !! c with
        | Some cmd => Some cmd
        | None =>
            if decide (c = "?") then Some IndexCommand
            else if decide (c = "get") then Some GetEntityCommand
            else if decide (c = "show") then Some ShowEntityCommand
            else if allow_edit then
              if decide (c = "set") then Some SetEntityCommand
              else if decide (c = "save") then Some SaveEntityCommand
              else if decide (c = "discard") then Some DiscardEntityCommand
              else None
            else None
        end) ∧
  (∀ c cmd, ItemNamespace_commands !! c = Some cmd →
            cmd = SetEntityCommand ∨ cmd = SaveEntityCommand ∨
            cmd = DiscardEntityCommand →
            allow_edit = true ∨ subcommands !! c = Some cmd).
Proof.
  assert (∀ c, ItemNamespace_commands !! c =
               match subcommands !! c with
               | Some cmd => Some cmd
               | None =>
                   if decide (c = "?") then Some IndexCommand
                   else if decide (c = "get") then Some GetEntityCommand
                   else if decide (c = "show") then Some ShowEntityCommand
                   else if allow_edit then
                     if decide (c = "set") then Some SetEntityCommand
                     else if decide (c = "save") then Some SaveEntityCommand
                     else if decide (c = "discard") then Some DiscardEntityCommand
                     else None
                   else None
               end) as Hlookup.
  { intros c. unfold ItemNamespace_commands. rewrite lookup_union.
    destruct (subcommands !! c) as [cmd |]; simpl.
    - by destruct (_ !! c).
    - rewrite (left_id_L None _).
      destruct allow_edit.
      + rewrite lookup_union, !lookup_insert, !lookup_singleton.
        repeat case_decide; subst; try done.
      + rewrite !lookup_insert, !lookup_singleton.
        repeat case_decide; subst; try done. }
  split; [exact Hlookup |].
  intros c cmd Hc Hcmd. rewrite Hlookup in Hc.
  destruct (subcommands !! c) as [cmd' |]; [by right |].
  destruct allow_edit; [by left |].
  repeat case_decide; try done;
    destruct Hcmd as [-> | [-> | ->]]; discriminate.
Qed.

(** X24: the commands of a collection: under [allow_create] it offers
    its [create] and [delete] commands, which replace extra commands of
    those names; without it the two names are offered only if the extra
    commands hold them. *)
Theorem entity_commands_gate_creation :
  (allow_create = true →
     EntityNamespace_commands !! "create" = Some CreateEntityCommand ∧
     EntityNamespace_commands !! "delete" = Some DeleteEntityCommand) ∧
  (allow_create = false →
     EntityNamespace_commands !! "create" = extra_commands !! "create" ∧
     EntityNamespace_commands !! "delete" = extra_commands !! "delete").
Proof.
  unfold EntityNamespace_commands. split; intros ->.
  - split; apply lookup_union_Some_l;
      rewrite ?lookup_insert; repeat case_decide; try done;
      by rewrite ?lookup_singleton_eq.
  - split; rewrite lookup_union;
      destruct (extra_commands !! _); simpl; try done.
Qed.

End Framework.

(** ** The framework on the tunables namespace *)

(** The task names and the primary key are the ones [TunablesNamespace]
    declares; the name of the query call stands for the one its load
    mixin uses. *)
Abbreviation tunables_set :=
  (SetEntityCommand_run sample_read_value tunables_mappings).
Abbreviation tunables_lifecycle :=
  (lifecycle sample_read_value sample_call_sync tunables_mappings
     "tunable.query" "tunable.create" "tunable.update" "var").
Abbreviation tunables_discard :=
  (DiscardEntityCommand_run sample_call_sync "tunable.query" "var").
Abbreviation tunables_save :=
  (TaskBasedSaveMixin_save "tunable.create" "tunable.update" "var").
Abbreviation tunables_delete :=
  (delete sample_call_sync "tunable.query" "tunable.delete" "var").

(** [set value=2048 bogus=x] prints the message and writes nothing;
    [set value=2048 enabled=no] writes both fields; and the run of
    [set enabled=no], which changes the namespace, had its field
    validated. *)
Lemma set_batch_all_or_nothing_witness :
  (∃ msg, tunables_set [("value", VStr "2048"); ("bogus", VStr "x")] []
            sample_world =
          (Ok tt, {| item := sample_item; tasks := []; output := [msg] |})) ∧
  tunables_set [("value", VStr "2048"); ("enabled", VStr "no")] []
    sample_world =
    (Ok tt,
     {| item := {| name := VStr "kern.maxfiles";
                   entity := <["enabled" := VBool false]>
                               (<["value" := VStr "2048"]> sample_record);
                   orig_entity := sample_record;
                   modified := true; saved := true |};
        tasks := []; output := [] |}) ∧
  Forall (λ kv, has_property tunables_mappings kv.1 = true)
    [("enabled", VStr "no")].
Proof.
  split_and!.
  - apply (set_batch_all_or_nothing sample_read_value tunables_mappings
             [("value", VStr "2048"); ("bogus", VStr "x")] [] sample_world).
    exists ("bogus", VStr "x"). split; [| reflexivity].
    apply list_elem_of_In. right. left. reflexivity.
  - apply (set_batch_all_or_nothing sample_read_value tunables_mappings
             [("value", VStr "2048"); ("enabled", VStr "no")] []
             sample_world).
    + repeat constructor.
    + reflexivity.
  - apply (set_batch_all_or_nothing sample_read_value tunables_mappings
             [("enabled", VStr "no")] [] sample_world)
      with (r := (tunables_set [("enabled", VStr "no")] [] sample_world).1)
           (w' := (tunables_set [("enabled", VStr "no")] [] sample_world).2).
    + reflexivity.
    + intros Hsame. apply (f_equal modified) in Hsame. discriminate Hsame.
Defined.

(** Saving the edited tunable sends its key and the one changed field;
    saving a new record sends the entity. *)
Lemma save_submits_key_and_diff_witness :
  let edited :=
    {| item := set_entity (<["value" := VStr "2048"]> sample_record) sample_item;
       tasks := []; output := [] |} in
  tunables_save false edited =
    (Ok tt,
     {| item := item edited;
        tasks := [{| task_name := "tunable.update";
                     task_args := [ArgValue (VStr "kern.maxfiles");
                                   ArgDict {["value" := VStr "2048"]}];
                     task_callback := Some PostSave |}];
        output := [] |}) ∧
  get_diff (entity (item edited)) (orig_entity (item edited)) !! "type" = None ∧
  tunables_save true edited =
    (Ok tt,
     {| item := item edited;
        tasks := [{| task_name := "tunable.create";
                     task_args := [ArgDict (entity (item edited))];
                     task_callback := Some PostSave |}];
        output := [] |}).
Proof.
  intros edited.
  destruct (save_submits_key_and_diff "tunable.create" "tunable.update" "var"
              edited) as (Hupdate & Hunchanged & Hcreate).
  split_and!.
  - rewrite (Hupdate (VStr "kern.maxfiles") eq_refl).
    vm_compute. reflexivity.
  - apply (Hunchanged "type" (VStr "SYSCTL")); reflexivity.
  - exact Hcreate.
Defined.

(** The callback on FINISHED and on FAILED. *)
Lemma post_save_on_status_witness :
  let this := set_modified true sample_new_item in
  post_save "FINISHED" this =
    (Ok tt, {| name := VNone; entity := ∅; orig_entity := ∅;
               modified := false; saved := true |}) ∧
  post_save "FAILED" this = (Ok tt, this).
Proof.
  intros this. split.
  - apply (post_save_on_status "FINISHED" this). reflexivity.
  - apply (post_save_on_status "FAILED" this). discriminate.
Defined.

(** [discard] after [set value=2048] on the saved tunable, and after
    [set name=my.tunable] on a new record. *)
Lemma discard_reloads_saved_keeps_unsaved_witness :
  tunables_discard
    {| item := set_modified true
                 (set_entity (<["value" := VStr "2048"]> sample_record)
                    sample_item);
       tasks := []; output := [] |} =
    (Ok tt, {| item := sample_item; tasks := []; output := [] |}) ∧
  tunables_discard
    {| item := set_modified true
                 (set_entity {[ "var" := VStr "my.tunable" ]} sample_new_item);
       tasks := []; output := [] |} =
    (Ok tt,
     {| item := {| name := VNone; entity := {[ "var" := VStr "my.tunable" ]};
                   orig_entity := {[ "var" := VStr "my.tunable" ]};
                   modified := false; saved := false |};
        tasks := []; output := [] |}) ∧
  get_diff (entity sample_item) (orig_entity sample_item) = ∅.
Proof.
  split_and!.
  - destruct (discard_reloads_saved_keeps_unsaved sample_call_sync
                "tunable.query" "var"
                {| item := set_modified true
                             (set_entity (<["value" := VStr "2048"]> sample_record)
                                sample_item);
                   tasks := []; output := [] |}) as (Hsaved & _ & _).
    exact (Hsaved eq_refl sample_record eq_refl).
  - destruct (discard_reloads_saved_keeps_unsaved sample_call_sync
                "tunable.query" "var"
                {| item := set_modified true
                             (set_entity {[ "var" := VStr "my.tunable" ]}
                                sample_new_item);
                   tasks := []; output := [] |}) as (_ & Hnew & _).
    exact (Hnew eq_refl).
  - destruct (discard_reloads_saved_keeps_unsaved sample_call_sync
                "tunable.query" "var"
                {| item := set_modified true
                             (set_entity (<["value" := VStr "2048"]> sample_record)
                                sample_item);
                   tasks := []; output := [] |}) as (Hsaved & _ & Hafter).
    destruct (Hafter {| item := sample_item; tasks := []; output := [] |}
                (Hsaved eq_refl sample_record eq_refl)) as (_ & _ & Hdiff & _).
    exact Hdiff.
Defined.

(** Deleting a tunable the backend does not hold, and one it holds. *)
Lemma delete_resolves_record_first_witness :
  tunables_delete (VStr "no.such.tunable") sample_world =
    (Raise NotFoundError, sample_world) ∧
  tunables_delete (VStr "kern.maxfiles") sample_world =
    (Ok tt,
     {| item := sample_item;
        tasks := [{| task_name := "tunable.delete";
                     task_args := [ArgValue (VStr "kern.maxfiles")];
                     task_callback := None |}];
        output := [] |}).
Proof.
  split.
  - apply (delete_resolves_record_first sample_call_sync "tunable.query"
             "tunable.delete" "var" (VStr "no.such.tunable") sample_world).
    reflexivity.
  - apply (delete_resolves_record_first sample_call_sync "tunable.query"
             "tunable.delete" "var" (VStr "kern.maxfiles") sample_world)
      with (record := sample_record); reflexivity.
Defined.

(** [-=] on an array mapping and on the string mapping [value]. *)
Lemma do_remove_writes_nothing_witness :
  (do_remove sample_read_value sample_array_mapping (VStr "a") sample_record).1
    = Ok tt ∧
  do_remove sample_read_value
    (PropertyMapping_init "value" "Value" (Key "value") None true STRING)
    (VStr "a") sample_record =
    (Raise (ValueError "Property is not an array"), sample_record) ∧
  do_append sample_read_value
    (PropertyMapping_init "value" "Value" (Key "value") None true STRING)
    (VStr "a") sample_record =
    (Raise (ValueError "Property is not an array"), sample_record).
Proof.
  split.
  - apply (do_remove_writes_nothing sample_read_value sample_array_mapping
             (VStr "a") sample_record). reflexivity.
  - apply (do_remove_writes_nothing sample_read_value
             (PropertyMapping_init "value" "Value" (Key "value") None true
                STRING) (VStr "a") sample_record).
    discriminate.
Defined.

(** [+=] on an array mapping with key accessors. *)
Lemma do_append_key_accessors_raise_witness :
  do_append sample_read_value sample_array_mapping (VStr "a")
    (<["tags" := VList []]> sample_record) =
    (Raise (TypeError "'str' object is not callable"),
     <["tags" := VList []]> sample_record).
Proof.
  apply (do_append_key_accessors_raise sample_read_value sample_array_mapping
           (VStr "a") (<["tags" := VList []]> sample_record) "tags" "tags");
    reflexivity.
Defined.

(** A lifecycle with an edit, a save and a failed task. *)
Lemma changed_keys_imply_modified_witness :
  let ops := [OpSet [("value", VStr "2048")] []; OpSave; OpCallback "FAILED"] in
  modified (item (tunables_lifecycle ops sample_world).2) = true.
Proof.
  intros ops.
  apply (changed_keys_imply_modified sample_read_value sample_call_sync
           tunables_mappings "tunable.query" "tunable.create" "tunable.update"
           "var" ops sample_world).
  - reflexivity.
  - vm_compute. reflexivity.
  - vm_compute. discriminate.
Defined.

(** C4, as stated, fails: a key the snapshot has and the entity lacks is
    a key on which the two mappings differ, and it is not yielded. *)
Lemma get_changed_keys_misses_removed_key :
  let entity : Entity := ∅ in
  let orig_entity : Entity := {["enabled" := VBool true]} in
  entity !! "enabled" ≠ orig_entity !! "enabled" ∧
  "enabled" ∉ get_changed_keys entity orig_entity.
Proof.
  split.
  - discriminate.
  - vm_compute. inversion 1.
Qed.

(** C6, as stated, fails: [set value=1024] on the tunable whose value is
    1024 returns with [modified] set and no changed key. *)
Lemma modified_with_no_changed_key :
  let w := (tunables_lifecycle [OpSet [("value", VStr "1024")] []]
              sample_world).2 in
  modified (item w) = true ∧
  get_changed_keys (entity (item w)) (orig_entity (item w)) = [].
Proof. vm_compute. done. Qed.

(** C2, as stated, fails: a record created in a new namespace and
    reported FINISHED is not new any more, its snapshot still lacks the
    primary key, and saving it raises KeyError without submitting a
    task. *)
Lemma save_not_new_without_key_raises :
  let w := (tunables_lifecycle
              [OpSet [("name", VStr "my.tunable")] []; OpSave;
               OpCallback "FINISHED"] sample_new_world).2 in
  saved (item w) = true ∧
  entity (item w) !! "var" = Some (VStr "my.tunable") ∧
  tunables_save false w = (Raise (KeyError "var"), w).
Proof. vm_compute. done. Qed.

(** C5, as stated, fails: on a record that is not saved [discard] does
    not bring the entity back to the snapshot it had: the edit stays in
    the entity. *)
Lemma discard_unsaved_keeps_pending_edit :
  let w := {| item := set_modified true
                        (set_entity {[ "var" := VStr "my.tunable" ]}
                           sample_new_item);
              tasks := []; output := [] |} in
  let w' := (tunables_discard w).2 in
  get_changed_keys (entity (item w)) (orig_entity (item w)) = ["var"] ∧
  orig_entity (item w) !! "var" = None ∧
  entity (item w') !! "var" = Some (VStr "my.tunable").
Proof. vm_compute. done. Qed.

(** ** Further behaviour of the commands *)

(** The validation pass of [set] reads the [field=value] assignments
    only: a field named with [+=] that the schema lacks makes
    [get_mapping] raise after the assignments were written. *)
Example set_operator_field_not_validated :
  tunables_set [("value", VStr "2048")] [("bogus", "+=", VStr "x")]
    sample_world =
    (Raise IndexError,
     {| item := set_entity (<["value" := VStr "2048"]> sample_record)
                  sample_item;
        tasks := []; output := [] |}).
Proof. vm_compute. reflexivity. Qed.

(** A coercion error stops the assignments where it occurs: the earlier
    ones stay written and [modified] is not set. *)
Example set_coercion_error_keeps_earlier_writes :
  tunables_set [("value", VStr "2048"); ("enabled", VStr "maybe")] []
    sample_world =
    (Raise (ValueError "invalid value"),
     {| item := set_entity (<["value" := VStr "2048"]> sample_record)
                  sample_item;
        tasks := []; output := [] |}).
Proof. vm_compute. reflexivity. Qed.

(** On a record that is not saved, [discard] keeps the edited entity and
    takes the snapshot from it. *)
Example discard_new_record_takes_snapshot :
  let edited : Entity := {["var" := VStr "my.tunable"]} in
  tunables_discard
    {| item := set_modified true (set_entity edited sample_new_item);
       tasks := []; output := [] |} =
    (Ok tt,
     {| item := {| name := VNone; entity := edited; orig_entity := edited;
                   modified := false; saved := false |};
        tasks := []; output := [] |}).
Proof. vm_compute. reflexivity. Qed.

(** The callback on FINISHED clears [modified] and leaves the snapshot
    where it was, so the changed keys remain. *)
Example finished_save_keeps_changed_keys :
  let w := (tunables_lifecycle
              [OpSet [("value", VStr "2048")] []; OpSave; OpCallback "FINISHED"]
              sample_world).2 in
  modified (item w) = false ∧
  get_changed_keys (entity (item w)) (orig_entity (item w)) = ["value"].
Proof. vm_compute. done. Qed.

(** ** The other commands on the tunables namespace *)

(** [do_set] then [do_get] through the mapping of [enabled]. *)
Lemma do_set_then_do_get_witness :
  ∃ obj', do_set sample_read_value
            (PropertyMapping_init "enabled" "Enabled" (Key "enabled") None true
               BOOLEAN) (VStr "no") sample_record = (Ok tt, obj') ∧
          do_get (PropertyMapping_init "enabled" "Enabled" (Key "enabled") None
                    true BOOLEAN) obj' = (Ok (VBool false), obj').
Proof.
  apply (do_set_then_do_get sample_read_value
           (PropertyMapping_init "enabled" "Enabled" (Key "enabled") None true
              BOOLEAN) (VStr "no") (VBool false) sample_record "enabled");
    reflexivity.
Defined.

(** Writing [value] leaves [type] alone. *)
Lemma do_set_writes_one_key_witness :
  ∃ obj', do_set sample_read_value
            (PropertyMapping_init "value" "Value" (Key "value") None true STRING)
            (VStr "2048") sample_record = (Ok tt, obj') ∧
          obj' !! "value" = Some (VStr "2048") ∧
          ∀ j, j ≠ "value" → obj' !! j = sample_record !! j.
Proof.
  apply (do_set_writes_one_key sample_read_value
           (PropertyMapping_init "value" "Value" (Key "value") None true STRING)
           (VStr "2048") sample_record "value").
  reflexivity.
Defined.

(** A name of the schema and one outside it. *)
Lemma get_mapping_first_match_witness :
  get_mapping tunables_mappings "bogus" = Raise IndexError ∧
  ∃ before m after,
    tunables_mappings = (before ++ m :: after)%list ∧
    get_mapping tunables_mappings "value" = Ok m ∧
    pm_name m = "value" ∧
    Forall (λ x, pm_name x ≠ "value") before.
Proof.
  split.
  - apply (get_mapping_first_match tunables_mappings "bogus"). reflexivity.
  - apply (get_mapping_first_match tunables_mappings "value"). reflexivity.
Defined.

(** [set tags-=a] on a namespace with the array mapping. *)
Lemma set_remove_only_marks_modified_witness :
  SetEntityCommand_run sample_read_value [sample_array_mapping] []
    [("tags", "-=", VStr "a")] sample_world =
    (Ok tt, {| item := set_modified true sample_item; tasks := [];
               output := [] |}).
Proof.
  apply (set_remove_only_marks_modified sample_read_value
           [sample_array_mapping] [("tags", "-=", VStr "a")] sample_world).
  repeat constructor.
  exists sample_array_mapping, (VList [VStr "a"]).
  repeat split; reflexivity.
Defined.

(** [set tags+=a] on the same namespace. *)
Lemma set_append_never_completes_witness :
  ∃ e, SetEntityCommand_run sample_read_value [sample_array_mapping] []
         [("tags", "+=", VStr "a")] sample_world = (Raise e, sample_world).
Proof.
  apply (set_append_never_completes sample_read_value [sample_array_mapping]
           [] "tags" (VStr "a") [] sample_world sample_array_mapping "tags").
  - constructor.
  - reflexivity.
  - reflexivity.
Defined.

(** [set value=2048 enabled*=2] *)
Lemma set_invalid_operator_raises_late_witness :
  tunables_set [("value", VStr "2048")] [("enabled", "*=", VNum 2)]
    sample_world =
    (Raise (CommandException "Syntax error, invalid operator used"),
     {| item := set_entity (<["value" := VStr "2048"]> sample_record)
                  sample_item;
        tasks := []; output := [] |}).
Proof.
  apply (set_invalid_operator_raises_late sample_read_value tunables_mappings
           [("value", VStr "2048")] "enabled" "*=" (VNum 2) [] sample_world
           (<["value" := VStr "2048"]> sample_record)).
  - discriminate.
  - discriminate.
  - repeat constructor.
  - reflexivity.
Defined.

(** [get] without argument, [get bogus value] and [get comment]. *)
Lemma get_prints_and_keeps_witness :
  GetEntityCommand_run tunables_mappings sample_text [] sample_world =
    (Ok tt, {| item := sample_item; tasks := [];
               output := ["Wrong arguments count"] |}) ∧
  GetEntityCommand_run tunables_mappings sample_text ["bogus"; "value"]
    sample_world =
    (Ok tt, {| item := sample_item; tasks := [];
               output := ["Property bogus not found"] |}) ∧
  GetEntityCommand_run tunables_mappings sample_text ["comment"] sample_world =
    (Ok tt, {| item := sample_item; tasks := []; output := ["None"] |}).
Proof.
  split_and!.
  - apply (get_prints_and_keeps tunables_mappings sample_text [] sample_world).
    reflexivity.
  - destruct (get_prints_and_keeps tunables_mappings sample_text
                ["bogus"; "value"] sample_world) as (_ & Hunknown & _).
    apply (Hunknown "bogus" ["value"]); reflexivity.
  - destruct (get_prints_and_keeps tunables_mappings sample_text
                ["comment"] sample_world) as (_ & _ & Hkey).
    apply (Hkey "comment" []
             (PropertyMapping_init "comment" "Comment" (Key "comment")
                (Some (Key "comment")) true STRING) "comment"); reflexivity.
Defined.

(** [set enabled=no] then [get enabled]. *)
Lemma set_then_get_prints_coerced_witness :
  ∃ w1, tunables_set [("enabled", VStr "no")] [] sample_world = (Ok tt, w1) ∧
        GetEntityCommand_run tunables_mappings sample_text ["enabled"] w1 =
          (Ok tt, {| item := item w1; tasks := tasks w1;
                     output := output w1 ++ ["False"] |}).
Proof.
  apply (set_then_get_prints_coerced sample_read_value tunables_mappings
           sample_text "enabled" (VStr "no") (VBool false) sample_world
           (PropertyMapping_init "enabled" "Enabled" (Key "enabled")
              (Some (Key "enabled")) true BOOLEAN) "enabled");
    reflexivity.
Defined.

(** The diff of an edited tunable, written over the snapshot. *)
Lemma diff_patches_snapshot_witness :
  let edited : Entity := <["value" := VStr "2048"]> sample_record in
  ∃ v', (get_diff edited sample_record ∪ sample_record) !! "value" = Some v' ∧
        py_eq (VStr "2048") v' = true.
Proof.
  intros edited.
  destruct (diff_patches_snapshot edited sample_record) as [Hpatch _].
  apply (Hpatch "value" (VStr "2048")). apply lookup_insert_eq.
Defined.

(** [discard] on a tunable the backend no longer holds. *)
Lemma discard_failure_keeps_edits_witness :
  let gone :=
    {| item := set_modified true
                 (SingleItemNamespace_init (VStr "gone")
                    {[ "var" := VStr "gone"; "value" := VStr "1" ]});
       tasks := []; output := [] |} in
  tunables_discard gone = (Raise NotFoundError, gone).
Proof.
  intros gone.
  apply (discard_failure_keeps_edits sample_call_sync "tunable.query" "var"
           gone NotFoundError); reflexivity.
Defined.

(** A record created from the skeleton, once its task finished. *)
Lemma save_after_finished_is_update_witness :
  let created :=
    {| item := set_entity {[ "var" := VStr "my.tunable" ]}
                 (SingleItemNamespace_init VNone sample_skeleton);
       tasks := []; output := [] |} in
  let w1 := (run_callback PostSave "FINISHED" created).2 in
  tunables_save (negb (saved (item w1))) w1 = (Raise (KeyError "var"), w1) ∧
  save "tunable.create" "tunable.update" "type" w1 =
    (Ok tt,
     {| item := item w1;
        tasks := [{| task_name := "tunable.update";
                     task_args :=
                       [ArgValue (VStr "SYSCTL");
                        ArgDict (get_diff (entity (item created))
                                   (orig_entity (item created)))];
                     task_callback := Some PostSave |}];
        output := [] |}).
Proof.
  intros created w1. split.
  - apply (save_after_finished_is_update "tunable.create" "tunable.update"
             "var" created). reflexivity.
  - destruct (save_after_finished_is_update "tunable.create" "tunable.update"
                "type" created) as [_ Hupdate].
    apply (Hupdate (VStr "SYSCTL")). reflexivity.
Defined.

(** A [set] keeps the snapshot, a [save] the entity. *)
Lemma only_set_and_discard_write_witness :
  entity (item (exec sample_read_value sample_call_sync tunables_mappings
                  "tunable.query" "tunable.create" "tunable.update" "var"
                  OpSave sample_world).2) = sample_record ∧
  orig_entity (item (exec sample_read_value sample_call_sync tunables_mappings
                       "tunable.query" "tunable.create" "tunable.update" "var"
                       (OpSet [("value", VStr "2048")] []) sample_world).2)
    = sample_record.
Proof.
  split.
  - apply (only_set_and_discard_write sample_read_value sample_call_sync
             tunables_mappings "tunable.query" "tunable.create"
             "tunable.update" "var" OpSave sample_world).
    left. reflexivity.
  - apply (only_set_and_discard_write sample_read_value sample_call_sync
             tunables_mappings "tunable.query" "tunable.create"
             "tunable.update" "var" (OpSet [("value", VStr "2048")] [])
             sample_world).
    discriminate.
Defined.

(** [create value=1 bogus=x] *)
Lemma create_unknown_field_submits_nothing_witness :
  ∃ msg,
    CreateEntityCommand_run sample_read_value sample_call_sync
      tunables_mappings "tunable.query" "tunable.create" "tunable.update"
      "var" (Some tunables_primary_key) sample_skeleton []
      [("value", VStr "1"); ("bogus", VStr "x")] sample_world =
    (Ok tt, {| item := SingleItemNamespace_init VNone sample_skeleton;
               tasks := []; output := [msg] |}).
Proof.
  destruct (create_unknown_field_submits_nothing sample_read_value
              sample_call_sync tunables_mappings "tunable.query"
              "tunable.create" "tunable.update" "var"
              (Some tunables_primary_key) sample_skeleton []
              [("value", VStr "1"); ("bogus", VStr "x")] sample_world)
    as [_ Hmsg].
  - exists ("bogus", VStr "x"). split; [| reflexivity].
    apply list_elem_of_In. right. left. reflexivity.
  - exact (Hmsg eq_refl).
Defined.

(** [create my.tunable value=1] *)
Lemma create_submits_assigned_skeleton_witness :
  let created : Entity :=
    <["value" := VStr "1"]> (<["var" := VStr "my.tunable"]> sample_skeleton) in
  CreateEntityCommand_run sample_read_value sample_call_sync
    tunables_mappings "tunable.query" "tunable.create" "tunable.update"
    "var" (Some tunables_primary_key) sample_skeleton [VStr "my.tunable"]
    [("value", VStr "1")] sample_world =
  (Ok tt,
   {| item := {| name := VNone; entity := created;
                 orig_entity := sample_skeleton;
                 modified := false; saved := false |};
      tasks := [{| task_name := "tunable.create";
                   task_args := [ArgDict created];
                   task_callback := Some PostSave |}];
      output := [] |}).
Proof.
  intros created.
  apply (create_submits_assigned_skeleton sample_read_value sample_call_sync
           tunables_mappings "tunable.query" "tunable.create" "tunable.update"
           "var" (Some tunables_primary_key) sample_skeleton
           [VStr "my.tunable"] [("value", VStr "1")] sample_world
           (<["var" := VStr "my.tunable"]> sample_skeleton) created).
  - exists tunables_primary_key. split; reflexivity.
  - repeat constructor.
  - reflexivity.
Defined.

(** [show bogus=1], and [show limit=10 bogus~=x]. *)
Lemma list_unknown_field_raises_witness :
  (∃ e, ListCommand_request sample_read_value tunables_mappings sample_int
          [("bogus", VStr "1")] [] = Raise e) ∧
  (∃ e, ListCommand_request sample_read_value tunables_mappings sample_int
          [("limit", VStr "10")] [("bogus", "~=", VStr "x")] = Raise e).
Proof.
  split.
  - apply (list_unknown_field_raises sample_read_value tunables_mappings
             sample_int [("bogus", VStr "1")] []).
    left. exists ("bogus", VStr "1").
    split_and!; [apply list_elem_of_In; left; reflexivity | discriminate
                | discriminate | discriminate | reflexivity].
  - apply (list_unknown_field_raises sample_read_value tunables_mappings
             sample_int [("limit", VStr "10")] [("bogus", "~=", VStr "x")]).
    right. exists ("bogus", "~=", VStr "x").
    split; [apply list_elem_of_In; left; reflexivity | reflexivity].
Defined.

(** [show type=SYSCTL limit=10 sort=var value~=10] *)
Lemma list_request_shape_witness :
  ∃ request cols,
    ListCommand_request sample_read_value tunables_mappings sample_int
      [("type", VStr "SYSCTL"); ("limit", VStr "10"); ("sort", VStr "var")]
      [("value", "~=", VStr "10")] = Ok (request, cols) ∧
    (∃ ps1 p2, params request = (ps1 ++ [p2])%list ∧ p2.1.2 = "~") ∧
    length (params request) = 2%nat.
Proof.
  destruct (ListCommand_request sample_read_value tunables_mappings sample_int
              [("type", VStr "SYSCTL"); ("limit", VStr "10");
               ("sort", VStr "var")] [("value", "~=", VStr "10")])
    as [[request cols] | e] eqn:Hrun; [| vm_compute in Hrun; discriminate].
  exists request, cols. split; [reflexivity |].
  destruct (list_request_shape sample_read_value tunables_mappings sample_int
              _ _ request cols Hrun)
    as ((ps1 & ps2 & Hps & _ & Hops) & _ & _ & Hlen).
  split; [| exact Hlen].
  inversion Hops as [| kopv p2 l ps2' Hp2 Hrest]; subst.
  inversion Hrest; subst.
  exists ps1, p2. split; [exact Hps | exact (proj1 (proj2 Hp2))].
Defined.

(** The name of an edited tunable. *)
Lemma get_name_display_witness :
  get_name sample_text (Some tunables_primary_key)
    (set_modified true sample_item) =
    (Ok (VStr "[kern.maxfiles]"), set_modified true sample_item).
Proof.
  destruct (get_name_display sample_text (Some tunables_primary_key)
              (set_modified true sample_item) tunables_primary_key "var"
              eq_refl eq_refl) as (nm & _ & Hrun & _ & Hnm).
  rewrite Hrun. rewrite Hnm; [reflexivity | discriminate].
Defined.

(** A namespace that is not editable, with a command of its own; and
    one that is not editable and brings its own [set]. *)
Lemma item_commands_gate_editing_witness :
  ItemNamespace_commands false {[ "test" := CustomCommand "test" ]} !! "get"
    = Some GetEntityCommand ∧
  ItemNamespace_commands false {[ "test" := CustomCommand "test" ]} !! "set"
    = None ∧
  (false = true ∨
   ({[ "set" := SetEntityCommand ]} : gmap string CommandObj) !! "set"
     = Some SetEntityCommand).
Proof.
  destruct (item_commands_gate_editing false
              {[ "test" := CustomCommand "test" ]}) as [Hlookup _].
  destruct (item_commands_gate_editing false {[ "set" := SetEntityCommand ]})
    as [_ Hedit].
  split_and!.
  - rewrite (Hlookup "get"). reflexivity.
  - rewrite (Hlookup "set"). reflexivity.
  - apply (Hedit "set" SetEntityCommand); [reflexivity | by left].
Defined.

(** A collection that allows creation, and one that does not. *)
Lemma entity_commands_gate_creation_witness :
  EntityNamespace_commands true {[ "create" := CustomCommand "import" ]}
    !! "create" = Some CreateEntityCommand ∧
  EntityNamespace_commands false ∅ !! "delete" = None.
Proof.
  split.
  - apply (entity_commands_gate_creation true
             {[ "create" := CustomCommand "import" ]}). reflexivity.
  - destruct (entity_commands_gate_creation false ∅) as [_ Hoff].
    destruct (Hoff eq_refl) as [_ Hdelete]. rewrite Hdelete. reflexivity.
Defined.
